(** * pyxlsb.writer: the BIFF12 record writer

    A shallow embedding of [pyxlsb/writer.py]: the primitive packers, the two
    variable-length codecs ([RecordWriter.write_len] and
    [BIFF12Writer.write_id]), the text codec ([RecordWriter.write_string],
    [RecordWriter.write_obj_str]), the handler table
    ([SemiflexibleHandlers]) and [BIFF12Writer.write_bytes].

    Python objects are a small inductive type, integers are [Z] (Python
    integers are unbounded; [>>] and [&] are [Z.shiftr] and [Z.land], which
    agree with Python on negative numbers too), byte strings are lists of
    [Z] in [0, 256), text is a list of Unicode code points.  A method is a
    function from the receiver's state to an outcome (a value or a raised
    exception) and the new state: an exception keeps what was written
    before it. *)

From Stdlib Require Import ZArith List Bool Lia.
From Stdlib Require Import Floats.SpecFloat.
From stdpp Require Import base decidable countable strings list gmap.
Import ListNotations.

Local Open Scope string_scope.
Local Open Scope list_scope.
Local Open Scope Z_scope.

(** ** Python values *)

Definition bytes := list Z.

(** A [str]: its code points, each in [0, 0x10FFFF]. *)
Definition pystr := list Z.

(** The values a caller hands to the writer.  A [float] is carried by its
    IEEE 754 binary64 bit pattern.  [PyObject] is an instance of a class
    that derives from [object] only, known by its identity. *)
Inductive pyobj : Type :=
| PyInt (z : Z)
| PyBool (b : bool)
| PyFloat (bits : Z)
| PyStr (s : pystr)
| PyBytes (b : bytes)
| PyNone
| PyObject (cls : string) (id : positive).

Inductive exn : Type :=
| NameError (name : string)
| AttributeError
| AssertionError
| struct_error
| OverflowError
| OSError
| TypeError.

Inductive outcome (A : Type) : Type :=
| Returns (a : A)
| Raises (e : exn).
Arguments Returns {A} a.
Arguments Raises {A} e.

Definition exn_eqb (a b : exn) : bool :=
  match a, b with
  | NameError x, NameError y => String.eqb x y
  | AttributeError, AttributeError => true
  | AssertionError, AssertionError => true
  | struct_error, struct_error => true
  | OverflowError, OverflowError => true
  | OSError, OSError => true
  | TypeError, TypeError => true
  | _, _ => false
  end.

(** ** Methods: state passing with exceptions *)

Definition M (S A : Type) : Type := S -> outcome A * S.

Definition ret {S A} (a : A) : M S A := fun s => (Returns a, s).

Definition raise {S A} (e : exn) : M S A := fun s => (Raises e, s).

Definition bind {S A B} (c : M S A) (k : A -> M S B) : M S B :=
  fun s =>
    match c s with
    | (Returns a, s') => k a s'
    | (Raises e, s') => (Raises e, s')
    end.

(** A pure computation that may raise, run inside a method. *)
Definition lift {S A} (o : outcome A) : M S A := fun s => (o, s).

(** [try: body except E: handler]. *)
Definition try_except {S A} (body : M S A) (E : exn) (handler : M S A) : M S A :=
  fun s =>
    match body s with
    | (Raises e, s') => if exn_eqb e E then handler s' else (Raises e, s')
    | r => r
    end.

Declare Scope py_scope.
Delimit Scope py_scope with py.
Notation "x <- c ;; k" := (bind c (fun x => k))
  (at level 20, c at level 99, k at level 200, right associativity) : py_scope.
Notation "c ;; k" := (bind c (fun _ => k))
  (at level 100, k at level 200, right associativity) : py_scope.
Local Open Scope py_scope.

(** [if cond: body] with no [else]. *)
Definition when {S} (cond : bool) (body : M S unit) : M S unit :=
  if cond then body else ret tt.

(** ** The sink

    The file object behind a writer.  [written] is the log of the [write]
    calls it accepted, oldest first.  [room] is how many more bytes it
    takes: [None] for a sink that never fails, [Some n] for one that raises
    [OSError] on the write that would go past [n] bytes. *)
Record File : Type := mkFile {
  written : list bytes;
  room : option nat
}.

Definition File_write (data : bytes) : M File Z :=
  fun f =>
    match room f with
    | None =>
        (Returns (Z.of_nat (length data)), mkFile (written f ++ [data]) None)
    | Some n =>
        if (length data <=? n)%nat
        then (Returns (Z.of_nat (length data)),
              mkFile (written f ++ [data]) (Some (n - length data)%nat))
        else (Raises OSError, f)
    end.

(** A sink that accepts every write, with [log] already written. *)
Definition working (log : list bytes) : File := mkFile log None.

(** ** Module globals

    The names bound at module level of [writer.py] (what it imports and
    the three classes it defines), and what a function body gets when it
    looks one up: the bound object, or a [NameError]. *)

Inductive structfmt : Type := fmt_B | fmt_H | fmt_i | fmt_I | fmt_f | fmt_d.

Inductive global_obj : Type :=
| GModule (name : string)
| GStruct (fmt : structfmt)
| GClass (name : string).

(** Modelled from the spec: the packers [uint8_t], [uint16_t], [int32_t],
    [uint32_t] and [double_t] come from the reader module, whose source is
    not at hand; they are the fixed-width little-endian scalars of the
    primitive codec (8, 16 and 32 bit integers, 64 bit floating point),
    named by their C types. *)
Definition module_globals : list (string * global_obj) :=
  [ ("biff12", GModule "biff12");
    ("uint8_t", GStruct fmt_B);
    ("uint16_t", GStruct fmt_H);
    ("int32_t", GStruct fmt_i);
    ("uint32_t", GStruct fmt_I);
    ("double_t", GStruct fmt_d);
    ("BIFF12Reader", GClass "BIFF12Reader");
    ("os", GModule "os");
    ("np", GModule "numpy");
    ("RecordWriter", GClass "RecordWriter");
    ("SemiflexibleHandlers", GClass "SemiflexibleHandlers");
    ("BIFF12Writer", GClass "BIFF12Writer") ].

Fixpoint assoc (name : string) (l : list (string * global_obj)) : option global_obj :=
  match l with
  | [] => None
  | (n, g) :: rest => if String.eqb name n then Some g else assoc name rest
  end.

Definition load_global (name : string) : outcome global_obj :=
  match assoc name module_globals with
  | Some g => Returns g
  | None => Raises (NameError name)
  end.

(** ** The [struct] packers *)

(** The bytes of [v], least significant first; for a negative [v] these are
    the bytes of its two's complement. *)
Definition le_bytes (width : nat) (v : Z) : bytes :=
  map (fun i => Z.land (Z.shiftr v (8 * Z.of_nat i)) 0xFF) (seq 0 width).

(** What an integer format accepts: an [int], or a [bool], which is one. *)
Definition as_index (v : pyobj) : option Z :=
  match v with
  | PyInt z => Some z
  | PyBool b => Some (Z.b2z b)
  | _ => None
  end.

Definition pack_int (width : nat) (lo hi : Z) (v : pyobj) : outcome bytes :=
  match as_index v with
  | Some z =>
      if (lo <=? z) && (z <=? hi)
      then Returns (le_bytes width z)
      else Raises struct_error
  | None => Raises struct_error
  end.

Definition decode_binary64 (bits : Z) : spec_float :=
  let s := Z.testbit bits 63 in
  let E := Z.land (Z.shiftr bits 52) 0x7FF in
  let frac := Z.land bits (Z.ones 52) in
  if E =? 0 then
    match frac with
    | Zpos m => S754_finite s m (-1074)
    | _ => S754_zero s
    end
  else if E =? 0x7FF then
    if frac =? 0 then S754_infinity s else S754_nan
  else
    match frac + 2 ^ 52 with
    | Zpos m => S754_finite s m (E - 1075)
    | _ => S754_nan
    end.

(** The bit pattern of a number already rounded to the format with [prec]
    significant bits and exponents below [emax]; a NaN keeps [nan_frac]. *)
Definition encode_binary (prec emax : Z) (nan_sign : bool) (nan_frac : Z)
    (x : spec_float) : Z :=
  let mw := prec - 1 in
  let ew_ones := 2 * emax - 1 in
  let field (s : bool) (E frac : Z) :=
    Z.lor (Z.shiftl (Z.b2z s) (mw + Z.log2 (2 * emax)))
          (Z.lor (Z.shiftl E mw) frac) in
  match x with
  | S754_zero s => field s 0 0
  | S754_infinity s => field s ew_ones 0
  | S754_nan => field nan_sign ew_ones nan_frac
  | S754_finite s m e =>
      if Zpos m <? 2 ^ mw
      then field s 0 (Zpos m)
      else field s (e - emin prec emax + 1) (Zpos m - 2 ^ mw)
  end.

(** The conversion to a C [double] that the float formats apply first. *)
Definition as_double (v : pyobj) : outcome Z :=
  match v with
  | PyFloat bits => Returns bits
  | PyInt _ | PyBool _ =>
      match as_index v with
      | Some z =>
          match binary_normalize 53 1024 z 0 false with
          | S754_infinity _ => Raises struct_error
          | x => Returns (encode_binary 53 1024 false 0 x)
          end
      | None => Raises struct_error
      end
  | _ => Raises struct_error
  end.

(** Narrowing a [double] to a [float]: round to nearest even; a finite
    number that lands on an infinity is an overflow. *)
Definition pack_float32 (bits : Z) : outcome bytes :=
  let nan_frac := Z.lor (Z.shiftr (Z.land bits (Z.ones 52)) 29) 0x400000 in
  let out x := Returns (le_bytes 4 (encode_binary 24 128 (Z.testbit bits 63) nan_frac x)) in
  match decode_binary64 bits with
  | S754_finite s m e =>
      match binary_round 24 128 s m e with
      | S754_infinity _ => Raises OverflowError
      | x => out x
      end
  | x => out x
  end.

(** [Struct.pack] of one value. *)
Definition Struct_pack (fmt : structfmt) (v : pyobj) : outcome bytes :=
  match fmt with
  | fmt_B => pack_int 1 0 0xFF v
  | fmt_H => pack_int 2 0 0xFFFF v
  | fmt_i => pack_int 4 (- 0x80000000) 0x7FFFFFFF v
  | fmt_I => pack_int 4 0 0xFFFFFFFF v
  | fmt_d =>
      match as_double v with
      | Returns bits => Returns (le_bytes 8 bits)
      | Raises e => Raises e
      end
  | fmt_f =>
      match as_double v with
      | Returns bits => pack_float32 bits
      | Raises e => Raises e
      end
  end.

(** [g.pack(v)] for a module-level name [g]. *)
Definition pack (g : global_obj) (v : pyobj) : outcome bytes :=
  match g with
  | GStruct fmt => Struct_pack fmt v
  | _ => Raises AttributeError
  end.

(** [g.Struct(fmt)]: only the [struct] module has it. *)
Definition Struct (g : global_obj) (fmt : structfmt) : outcome global_obj :=
  match g with
  | GModule "struct" => Returns (GStruct fmt)
  | _ => Raises AttributeError
  end.

(** ** Text encoding *)

Inductive codec : Type := utf_16 | utf_16_le.

(** One 16-bit code unit, low byte first. *)
Definition code_unit (u : Z) : bytes := [Z.land u 0xFF; Z.shiftr u 8].

(** A code point as UTF-16: a lone surrogate cannot be encoded and, under
    [errors='replace'], becomes a question mark; a code point past the
    basic plane becomes a surrogate pair. *)
Definition encode_code_point (c : Z) : bytes :=
  if (0xD800 <=? c) && (c <=? 0xDFFF) then code_unit 0x3F
  else if c <? 0x10000 then code_unit c
  else
    let c' := c - 0x10000 in
    code_unit (0xD800 + Z.shiftr c' 10) ++ code_unit (0xDC00 + Z.land c' 0x3FF).

Definition utf_16_le_encode (s : pystr) : bytes := flat_map encode_code_point s.

(** The byte-order mark of a little-endian host. *)
Definition BOM : bytes := [0xFF; 0xFE].

(** [s.encode(enc, errors='replace')] on a little-endian host. *)
Definition str_encode (enc : codec) (s : pystr) : bytes :=
  match enc with
  | utf_16 => BOM ++ utf_16_le_encode s
  | utf_16_le => utf_16_le_encode s
  end.

(** [obj.encode(enc, errors='replace')]: only a [str] has the method. *)
Definition encode (obj : pyobj) (enc : codec) : outcome bytes :=
  match obj with
  | PyStr s => Returns (str_encode enc s)
  | _ => Raises AttributeError
  end.

(** [data.lstrip(chars)]: drops every leading byte that occurs in [chars]. *)
Fixpoint lstrip (chars : bytes) (data : bytes) : bytes :=
  match data with
  | [] => []
  | b :: rest => if existsb (Z.eqb b) chars then lstrip chars rest else data
  end.

Definition len {A} (l : list A) : Z := Z.of_nat (length l).

(** [isinstance(obj, int)]: [bool] is a subclass of [int]. *)
Definition isinstance_int (obj : pyobj) : bool :=
  match obj with
  | PyInt _ | PyBool _ => true
  | _ => false
  end.

Definition assert {S} (cond : bool) : M S unit :=
  if cond then ret tt else raise AssertionError.

(** [range(n)]. *)
Definition range (n : nat) : list Z := map Z.of_nat (seq 0 n).

(** ** RecordWriter *)

Module RecordWriter.

Record t : Type := mk { _fp : File; _enc : codec }.

(** [RecordWriter(fp)], with the default [enc='utf-16']. *)
Definition __init__ (fp : File) : t := mk fp utf_16.

(** [self._fp.write(data)]. *)
Definition _fp_write (data : bytes) : M t Z :=
  fun self =>
    let (r, fp) := File_write data (_fp self) in
    (r, mk fp (_enc self)).

Definition write (data : bytes) : M t Z := _fp_write data.

Fixpoint write_len_loop (val : Z) (indices : list Z) : M t unit :=
  match indices with
  | [] => ret tt
  | i :: rest =>
      let nearlybyte := Z.land (Z.shiftr val (7 * i)) 0x7F in
      uint8_t <- lift (load_global "uint8_t") ;;
      payload <- lift (pack uint8_t (PyInt nearlybyte)) ;;
      _fp_write payload ;;
      if Z.land nearlybyte 0x80 =? 0
      then ret tt
      else write_len_loop val rest
  end.

Definition write_len (val : Z) : M t unit := write_len_loop val (range 4).

Definition write_int (val : pyobj) (do_write_len : bool) : M t unit :=
  uint32_t <- lift (load_global "uint32_t") ;;
  payload <- lift (pack uint32_t val) ;;
  when do_write_len (write_len (len payload)) ;;
  _fp_write payload ;;
  ret tt.

Definition write_short (val : pyobj) (do_write_len : bool) : M t unit :=
  uint16_t <- lift (load_global "uint16_t") ;;
  payload <- lift (pack uint16_t val) ;;
  when do_write_len (write_len (len payload)) ;;
  _fp_write payload ;;
  ret tt.

Definition write_byte (val : pyobj) (do_write_len : bool) : M t unit :=
  uint8_t <- lift (load_global "uint8_t") ;;
  payload <- lift (pack uint8_t val) ;;
  when do_write_len (write_len (len payload)) ;;
  _fp_write payload ;;
  ret tt.

Definition write_float (val : pyobj) (do_write_len : bool) : M t unit :=
  struct <- lift (load_global "struct") ;;
  float_t <- lift (Struct struct fmt_f) ;;
  payload <- lift (pack float_t val) ;;
  when do_write_len (write_len (len payload)) ;;
  _fp_write payload ;;
  ret tt.

Definition write_double (val : pyobj) (do_write_len : bool) : M t unit :=
  double_t <- lift (load_global "double_t") ;;
  payload <- lift (pack double_t val) ;;
  when do_write_len (write_len (len payload)) ;;
  _fp_write payload ;;
  ret tt.

Definition write_string (str_data : pyobj) : M t unit :=
  try_except
    (fun self =>
       (data <- lift (encode str_data (_enc self)) ;;
        let data := lstrip BOM data in
        let size := len data / 2 in
        write_int (PyInt size) false ;;
        _fp_write data ;;
        ret tt) self)
    AttributeError
    (write_int str_data false).

Section Str.

(** What the builtin [str] returns for an object that is not a [str]. *)
Variable object_str : pyobj -> pystr.

Definition str (obj : pyobj) : pystr :=
  match obj with
  | PyStr s => s
  | _ => object_str obj
  end.

Definition write_obj_str (obj : pyobj) : M t unit :=
  try_except
    (assert (negb (isinstance_int obj)) ;;
     write_string (PyStr (str obj)))
    AssertionError
    (write_int obj false).

End Str.

End RecordWriter.

(** ** Record tags *)

(** Modelled from the spec: the record tags of the [biff12] module, whose
    source is not at hand; the writer only names them. *)
Module biff12.
Inductive tag : Type := FLOAT | NUM | BOOL | STRING.
End biff12.

(** ** SemiflexibleHandlers *)

(** The encoders the table holds: unbound methods of [RecordWriter]. *)
Inductive encoder : Type :=
| write_int_m
| write_short_m
| write_byte_m
| write_float_m
| write_double_m
| write_string_m
| write_obj_str_m.

(** Calling a table entry's encoder on a writer. *)
Definition call (object_str : pyobj -> pystr) (e : encoder) (val : pyobj)
    : M RecordWriter.t unit :=
  match e with
  | write_int_m => RecordWriter.write_int val false
  | write_short_m => RecordWriter.write_short val false
  | write_byte_m => RecordWriter.write_byte val false
  | write_float_m => RecordWriter.write_float val false
  | write_double_m => RecordWriter.write_double val false
  | write_string_m => RecordWriter.write_string val
  | write_obj_str_m => RecordWriter.write_obj_str object_str val
  end.

(** A numpy dtype object: one of the nine the table registers, or another
    one, known by its identity.  A dtype is what it is however it was
    spelled: [np.dtype('f4')] is [np_float32]. *)
Inductive dtype : Type :=
| np_int64
| np_int32
| np_int16
| np_int8
| np_float64
| np_float32
| np_float16
| np_bool8
| np_object
| np_other (id : positive).

(** What a table is indexed with: a class object such as [int], a numpy
    dtype, a value (with the identity of the object, [id]), or an object
    of a class that has no hash, such as a [list], a [dict], a [set] or an
    [ndarray]. *)
Inductive pykey : Type :=
| KClass (name : string)
| KDtype (d : dtype)
| KValue (v : pyobj) (id : positive)
| KUnhashable (cls : string).

(** [isinstance(key, cls)] for the four classes the table asks about.  A
    class object is an instance of [type], and a dtype of [numpy.dtype]. *)
Module builtins.
Inductive class : Type := int | float | bool | str.
End builtins.

Definition isinstance (key : pykey) (cls : builtins.class) : bool :=
  match key, cls with
  | KValue (PyInt _) _, builtins.int => true
  | KValue (PyBool _) _, (builtins.int | builtins.bool) => true
  | KValue (PyFloat _) _, builtins.float => true
  | KValue (PyStr _) _, builtins.str => true
  | _, _ => false
  end.

(** A class object used as a key. *)
Definition class_key (cls : builtins.class) : pykey :=
  match cls with
  | builtins.int => KClass "int"
  | builtins.float => KClass "float"
  | builtins.bool => KClass "bool"
  | builtins.str => KClass "str"
  end.

(** The integer a [float] is equal to, when there is one. *)
Definition float_as_integer (bits : Z) : option Z :=
  match decode_binary64 bits with
  | S754_zero _ => Some 0
  | S754_finite s m e =>
      let sign := if s then -1 else 1 in
      if 0 <=? e then Some (sign * (Zpos m * 2 ^ e))
      else if Zpos m mod 2 ^ (- e) =? 0 then Some (sign * (Zpos m / 2 ^ (- e)))
      else None
  | _ => None
  end.

(** A key as the dictionary tells keys apart, by hash and equality: equal
    numbers are one key whatever their type ([1], [True] and [1.0]); a NaN
    equals nothing, itself included, and is found again by the same object
    only; other values are compared by content, objects by identity. *)
Inductive dictkey : Type :=
| DNum (z : Z)
| DFloat (bits : Z)
| DNaN (id : positive)
| DStr (s : pystr)
| DBytes (b : bytes)
| DNone
| DObject (id : positive)
| DClass (name : string)
| DDtype (d : dtype).

(** The slot of a key; [None] for a key that has no hash. *)
Definition slot (key : pykey) : option dictkey :=
  match key with
  | KClass name => Some (DClass name)
  | KDtype d => Some (DDtype d)
  | KValue (PyInt z) _ => Some (DNum z)
  | KValue (PyBool b) _ => Some (DNum (Z.b2z b))
  | KValue (PyFloat bits) id =>
      match float_as_integer bits with
      | Some z => Some (DNum z)
      | None =>
          match decode_binary64 bits with
          | S754_nan => Some (DNaN id)
          | _ => Some (DFloat bits)
          end
      end
  | KValue (PyStr s) _ => Some (DStr s)
  | KValue (PyBytes b) _ => Some (DBytes b)
  | KValue PyNone _ => Some DNone
  | KValue (PyObject _ oid) _ => Some (DObject oid)
  | KUnhashable _ => None
  end.

#[global] Instance dtype_eq_dec : EqDecision dtype.
Proof. solve_decision. Defined.

Definition dtype_to_sum (d : dtype) : nat + positive :=
  match d with
  | np_int64 => inl 0%nat
  | np_int32 => inl 1%nat
  | np_int16 => inl 2%nat
  | np_int8 => inl 3%nat
  | np_float64 => inl 4%nat
  | np_float32 => inl 5%nat
  | np_float16 => inl 6%nat
  | np_bool8 => inl 7%nat
  | np_object => inl 8%nat
  | np_other id => inr id
  end.

Definition dtype_of_sum (x : nat + positive) : dtype :=
  match x with
  | inl 0%nat => np_int64
  | inl 1%nat => np_int32
  | inl 2%nat => np_int16
  | inl 3%nat => np_int8
  | inl 4%nat => np_float64
  | inl 5%nat => np_float32
  | inl 6%nat => np_float16
  | inl 7%nat => np_bool8
  | inl _ => np_object
  | inr id => np_other id
  end.

#[global] Instance dtype_countable : Countable dtype.
Proof.
  apply (inj_countable' dtype_to_sum dtype_of_sum).
  intros []; reflexivity.
Defined.

#[global] Instance dictkey_eq_dec : EqDecision dictkey.
Proof. solve_decision. Defined.

Definition dictkey_to_sum (k : dictkey)
    : Z + (Z + (positive + (list Z + (list Z + (unit + (positive + (string + dtype))))))) :=
  match k with
  | DNum z => inl z
  | DFloat bits => inr (inl bits)
  | DNaN id => inr (inr (inl id))
  | DStr s => inr (inr (inr (inl s)))
  | DBytes b => inr (inr (inr (inr (inl b))))
  | DNone => inr (inr (inr (inr (inr (inl tt)))))
  | DObject id => inr (inr (inr (inr (inr (inr (inl id))))))
  | DClass name => inr (inr (inr (inr (inr (inr (inr (inl name)))))))
  | DDtype d => inr (inr (inr (inr (inr (inr (inr (inr d)))))))
  end.

Definition dictkey_of_sum
    (x : Z + (Z + (positive + (list Z + (list Z + (unit + (positive + (string + dtype))))))))
    : dictkey :=
  match x with
  | inl z => DNum z
  | inr (inl bits) => DFloat bits
  | inr (inr (inl id)) => DNaN id
  | inr (inr (inr (inl s))) => DStr s
  | inr (inr (inr (inr (inl b)))) => DBytes b
  | inr (inr (inr (inr (inr (inl _))))) => DNone
  | inr (inr (inr (inr (inr (inr (inl id)))))) => DObject id
  | inr (inr (inr (inr (inr (inr (inr (inl name))))))) => DClass name
  | inr (inr (inr (inr (inr (inr (inr (inr d))))))) => DDtype d
  end.

#[global] Instance dictkey_countable : Countable dictkey.
Proof.
  apply (inj_countable' dictkey_to_sum dictkey_of_sum).
  intros []; reflexivity.
Defined.

Module SemiflexibleHandlers.

Definition entry : Type := biff12.tag * encoder.

Abbreviation t := (gmap dictkey entry).

(** [self[key] = value]; hashing a key that has no hash raises
    [TypeError]. *)
Definition setitem (key : pykey) (value : entry) : M t unit :=
  fun self =>
    match slot key with
    | Some k => (Returns tt, <[k := value]> self)
    | None => (Raises TypeError, self)
    end.

(** [self.update(pairs)]. *)
Fixpoint update (pairs : list (pykey * entry)) : M t unit :=
  match pairs with
  | [] => ret tt
  | (key, value) :: rest => setitem key value ;; update rest
  end.

(** [SemiflexibleHandlers()]; [np] tells whether numpy could be imported. *)
Definition __init__ (np : bool) : t :=
  let initial_handlers :=
    [ (KClass "int", (biff12.FLOAT, write_double_m));
      (KClass "float", (biff12.FLOAT, write_double_m));
      (KClass "bool", (biff12.BOOL, write_byte_m));
      (KClass "str", (biff12.STRING, write_string_m)) ] in
  snd ((update initial_handlers ;;
        when np
          (update
             [ (KDtype np_int64, (biff12.FLOAT, write_double_m));
               (KDtype np_int32, (biff12.NUM, write_int_m));
               (KDtype np_int16, (biff12.NUM, write_short_m));
               (KDtype np_int8, (biff12.NUM, write_byte_m));
               (KDtype np_float64, (biff12.FLOAT, write_double_m));
               (KDtype np_float32, (biff12.FLOAT, write_float_m));
               (KDtype np_float16, (biff12.FLOAT, write_float_m));
               (KDtype np_bool8, (biff12.BOOL, write_byte_m));
               (KDtype np_object, (biff12.STRING, write_obj_str_m)) ])) ∅).

(** The result of a call that may nest further calls: [None] when the
    nesting allowed runs out, else the outcome and the table. *)
Definition nested (A : Type) : Type := option (outcome A * t).

(** One statement after another: an exception, or the end of the nesting
    allowed, ends the body. *)
Definition and_then {A B} (r : nested A) (k : A -> t -> nested B) : nested B :=
  match r with
  | None => None
  | Some (Returns a, self) => k a self
  | Some (Raises e, self) => Some (Raises e, self)
  end.

(** [__missing__], given what [self[...]] does inside it. *)
Definition __missing__
    (getitem : t -> pykey -> nested entry)
    (self : t) (key : pykey) : nested entry :=
  if isinstance key builtins.int then
    and_then (getitem self (class_key builtins.int)) (fun value self =>
    and_then (Some (setitem key value self)) (fun _ self =>
    Some (Returns value, self)))
  else if isinstance key builtins.float then
    and_then (getitem self (class_key builtins.float)) (fun value self =>
    and_then (Some (setitem key value self)) (fun _ self =>
    Some (Returns value, self)))
  else if isinstance key builtins.bool then
    and_then (getitem self (class_key builtins.bool)) (fun value self =>
    and_then (Some (setitem key value self)) (fun _ self =>
    Some (Returns value, self)))
  else if isinstance key builtins.str then
    and_then (getitem self (class_key builtins.str)) (fun value self =>
    and_then (Some (setitem key value self)) (fun _ self =>
    Some (Returns value, self)))
  else
    let value := (biff12.STRING, write_obj_str_m) in
    and_then (Some (setitem key value self)) (fun _ self =>
    Some (Returns value, self)).

(** [self[key]]: the key is hashed, which raises [TypeError] for a key
    without a hash; then the stored entry is returned, or what
    [__missing__] returns.  The lookup inside [__missing__] is a nested
    call; [depth] bounds the nesting. *)
Fixpoint getitem (depth : nat) (self : t) (key : pykey) : nested entry :=
  match slot key with
  | None => Some (Raises TypeError, self)
  | Some k =>
      match self !! k with
      | Some value => Some (Returns value, self)
      | None =>
          match depth with
          | O => None
          | S depth' => __missing__ (getitem depth') self key
          end
      end
  end.

End SemiflexibleHandlers.

(** ** BIFF12Writer *)

Module BIFF12Writer.

Record t : Type := mk { _debug : bool; _writer : RecordWriter.t }.

Definition __init__ (fp : File) (debug : bool) : t :=
  mk debug (RecordWriter.__init__ fp).

(** [self._fp] is the writer's file object. *)
Definition _fp (self : t) : File := RecordWriter._fp (_writer self).

(** A method of [self._writer], run from a method of [self]. *)
Definition on_writer {A} (c : M RecordWriter.t A) : M t A :=
  fun self =>
    let (r, w) := c (_writer self) in
    (r, mk (_debug self) w).

Fixpoint write_id_loop (val : Z) (indices : list Z) : M t unit :=
  match indices with
  | [] => ret tt
  | i :: rest =>
      let byte := Z.land (Z.shiftr val (8 * i)) 0xFF in
      uint8_t <- lift (load_global "uint8_t") ;;
      payload <- lift (pack uint8_t (PyInt byte)) ;;
      on_writer (RecordWriter.write payload) ;;
      if Z.land byte 0x80 =? 0
      then ret tt
      else write_id_loop val rest
  end.

Definition write_id (val : Z) : M t unit := write_id_loop val (range 4).

Definition write_string (str_data : pyobj) : M t unit :=
  on_writer (RecordWriter.write_string str_data).

(** The assertion lets only a [bytes] object through. *)
Definition write_bytes (bytes_data : pyobj) : M t unit :=
  match bytes_data with
  | PyBytes data =>
      on_writer (RecordWriter.write_len (len data)) ;;
      when (negb (len data =? 0)) (on_writer (RecordWriter.write data) ;; ret tt)
  | _ => raise AssertionError
  end.

End BIFF12Writer.

(** ** The tag codec in the words of the specification

    Emit the low 8 bits of the remaining value, shift it right by 8 bits,
    for up to [steps] steps; stop once an emitted byte has its high bit
    (0x80) clear. *)
Fixpoint tag_codec_spec (steps : nat) (remaining : Z) : bytes :=
  match steps with
  | O => []
  | S steps' =>
      let byte := Z.land remaining 0xFF in
      byte :: (if Z.land byte 0x80 =? 0
               then []
               else tag_codec_spec steps' (Z.shiftr remaining 8))
  end.

(** One [write] call per byte. *)
Definition one_by_one (bs : bytes) : list bytes := map (fun b => [b]) bs.

(** The encoded text does not begin with one of the two bytes of the
    byte-order mark. *)
Definition starts_clean (s : pystr) : bool :=
  match utf_16_le_encode s with
  | [] => true
  | b :: _ => negb (existsb (Z.eqb b) BOM)
  end.

(** ** Reading aids

    What a reader of the stream makes of the bytes, used to state what the
    writer puts out. *)

(** The number a little-endian byte string stands for. *)
Fixpoint le_value (bs : bytes) : Z :=
  match bs with
  | [] => 0
  | b :: rest => b + 256 * le_value rest
  end.

(** The bytes of a tag of at most [steps] bytes: every byte but the last
    has its high bit set; the last one has it clear, unless it is the
    [steps]-th byte, which may be any byte. *)
Fixpoint tag_wellformed (steps : nat) (bs : bytes) : bool :=
  match steps, bs with
  | S O, [b] => (0 <=? b) && (b <? 0x100)
  | S _, [b] => (0 <=? b) && (b <? 0x80)
  | S steps', b :: rest => (0x80 <=? b) && (b <? 0x100) && tag_wellformed steps' rest
  | _, _ => false
  end.

(** A code point that UTF-16 cannot encode: a lone surrogate. *)
Definition is_surrogate (c : Z) : bool := (0xD800 <=? c) && (c <=? 0xDFFF).

(** The 16-bit units a code point takes. *)
Definition code_units (c : Z) : Z :=
  if is_surrogate c then 1 else if c <? 0x10000 then 1 else 2.

Definition utf_16_units (s : pystr) : Z :=
  fold_right (fun c n => code_units c + n) 0 s.

(** The text with a question mark for every lone surrogate. *)
Definition replace_surrogates (s : pystr) : pystr :=
  map (fun c => if is_surrogate c then 0x3F else c) s.

(** * Properties *)

(** ** The packers on examples *)

Example pack_uint32_258 : pack (GStruct fmt_I) (PyInt 258) = Returns [2; 1; 0; 0].
Proof. reflexivity. Qed.

Example pack_int32_minus2 : pack (GStruct fmt_i) (PyInt (-2)) = Returns [254; 255; 255; 255].
Proof. reflexivity. Qed.

Example pack_uint8_256 : pack (GStruct fmt_B) (PyInt 256) = Raises struct_error.
Proof. reflexivity. Qed.

(** 1.5 is [0x3FF8000000000000] as a double and [0x3FC00000] as a float. *)
Example pack_float_1_5 :
  Struct_pack fmt_f (PyFloat 0x3FF8000000000000) = Returns [0; 0; 0xC0; 0x3F].
Proof. vm_compute. reflexivity. Qed.

(** 0.1 is [0x3FB999999999999A] as a double and rounds to [0x3DCCCCCD]. *)
Example pack_float_0_1 :
  Struct_pack fmt_f (PyFloat 0x3FB999999999999A) = Returns [0xCD; 0xCC; 0xCC; 0x3D].
Proof. vm_compute. reflexivity. Qed.

(** 1e39 is [0x48078287F49C4A1D]: finite as a double, too large for a float. *)
Example pack_float_1e39 :
  Struct_pack fmt_f (PyFloat 0x48078287F49C4A1D) = Raises OverflowError.
Proof. vm_compute. reflexivity. Qed.

(** 42 is [0x4045000000000000] as a double. *)
Example pack_double_42 :
  Struct_pack fmt_d (PyInt 42) = Returns [0; 0; 0; 0; 0; 0; 0x45; 0x40].
Proof. vm_compute. reflexivity. Qed.

(** 2^53 + 1 is not a double: it rounds to 2^53, [0x4340000000000000]. *)
Example pack_double_rounds :
  Struct_pack fmt_d (PyInt (2 ^ 53 + 1)) = Returns [0; 0; 0; 0; 0; 0; 0x40; 0x43].
Proof. vm_compute. reflexivity. Qed.

Example pack_double_huge : Struct_pack fmt_d (PyInt (2 ^ 1024)) = Raises struct_error.
Proof. vm_compute. reflexivity. Qed.

(** ** Bits and bytes *)

Lemma land_0x7F_range (v : Z) : 0 <= Z.land v 0x7F < 0x80.
Proof.
  change 0x7F with (Z.ones 7). rewrite Z.land_ones by lia.
  change 0x80 with (2 ^ 7). apply Z.mod_pos_bound. lia.
Qed.

Lemma land_0xFF_range (v : Z) : 0 <= Z.land v 0xFF < 0x100.
Proof.
  change 0xFF with (Z.ones 8). rewrite Z.land_ones by lia.
  change 0x100 with (2 ^ 8). apply Z.mod_pos_bound. lia.
Qed.

Lemma land_0xFF_small (b : Z) : 0 <= b < 0x100 -> Z.land b 0xFF = b.
Proof.
  intros Hb. change 0xFF with (Z.ones 8). rewrite Z.land_ones by lia.
  apply Z.mod_small. exact Hb.
Qed.

(** A 7-bit group never has the bit that the loop of [write_len] tests. *)
Lemma group_high_bit_clear (v : Z) : Z.land (Z.land v 0x7F) 0x80 = 0.
Proof. rewrite <- Z.land_assoc. change (Z.land 0x7F 0x80) with 0. apply Z.land_0_r. Qed.

Lemma pack_uint8_byte (b : Z) :
  0 <= b < 0x100 -> pack (GStruct fmt_B) (PyInt b) = Returns [b].
Proof.
  intros Hb. unfold pack, Struct_pack, pack_int, as_index.
  replace ((0 <=? b) && (b <=? 0xFF)) with true
    by (symmetry; apply andb_true_intro; split; apply Z.leb_le; lia).
  unfold le_bytes. cbn [map seq Z.of_nat].
  change (8 * 0) with 0.
  rewrite Z.shiftr_0_r, land_0xFF_small by exact Hb.
  reflexivity.
Qed.

Lemma length_le_bytes (width : nat) (v : Z) : length (le_bytes width v) = width.
Proof. unfold le_bytes. rewrite length_map, length_seq. reflexivity. Qed.

Lemma pack_uint32_in_range (n : Z) :
  0 <= n <= 0xFFFFFFFF -> pack (GStruct fmt_I) (PyInt n) = Returns (le_bytes 4 n).
Proof.
  intros Hn. unfold pack, Struct_pack, pack_int, as_index.
  replace ((0 <=? n) && (n <=? 0xFFFFFFFF)) with true
    by (symmetry; apply andb_true_intro; split; apply Z.leb_le; lia).
  reflexivity.
Qed.

(** The width of a format, in bytes. *)
Lemma Struct_pack_width (fmt : structfmt) (v : pyobj) (payload : bytes) :
  Struct_pack fmt v = Returns payload ->
  length payload
  = match fmt with
    | fmt_B => 1 | fmt_H => 2 | fmt_i | fmt_I | fmt_f => 4 | fmt_d => 8
    end%nat.
Proof.
  assert (Hint : forall width lo hi,
    pack_int width lo hi v = Returns payload -> length payload = width).
  { intros width lo hi. unfold pack_int.
    destruct (as_index v); [destruct (_ && _) |]; intros H; inversion H.
    apply length_le_bytes. }
  destruct fmt; cbn [Struct_pack]; try apply Hint.
  - destruct (as_double v) as [bits | e]; [| discriminate].
    unfold pack_float32.
    destruct (decode_binary64 bits); try destruct (binary_round _ _ _ _ _);
      intros H; inversion H; apply length_le_bytes.
  - destruct (as_double v) as [bits | e]; intros H; inversion H.
    apply length_le_bytes.
Qed.

(** The integer formats raise nothing but [struct.error]. *)
Lemma pack_int_raises (width : nat) (lo hi : Z) (v : pyobj) (e : exn) :
  pack_int width lo hi v = Raises e -> e = struct_error.
Proof.
  unfold pack_int. destruct (as_index v); [destruct (_ && _) |]; congruence.
Qed.

(** ** Looking up the module's names *)

Lemma load_uint8_t : load_global "uint8_t" = Returns (GStruct fmt_B).
Proof. reflexivity. Qed.

Lemma load_uint32_t : load_global "uint32_t" = Returns (GStruct fmt_I).
Proof. reflexivity. Qed.

(** [struct] is used by [write_float] and bound nowhere in the module. *)
Lemma load_struct : load_global "struct" = Raises (NameError "struct").
Proof. reflexivity. Qed.

(** ** Running a method *)

Lemma bind_lift_Returns {S A B} (a : A) (k : A -> M S B) :
  bind (lift (Returns a)) k = k a.
Proof. reflexivity. Qed.

Lemma bind_lift_Raises {S A B} (e : exn) (k : A -> M S B) (s : S) :
  bind (lift (Raises e)) k s = (Raises e, s).
Proof. reflexivity. Qed.

Lemma bind_lift_Returns_ret {S B} (k : unit -> M S B) : bind (ret tt) k = k tt.
Proof. reflexivity. Qed.

Lemma bind_Returns {S A B} (c : M S A) (k : A -> M S B) (s s' : S) (a : A) :
  c s = (Returns a, s') -> bind c k s = k a s'.
Proof. intros H. unfold bind. rewrite H. reflexivity. Qed.

Lemma bind_Raises {S A B} (c : M S A) (k : A -> M S B) (s s' : S) (e : exn) :
  c s = (Raises e, s') -> bind c k s = (Raises e, s').
Proof. intros H. unfold bind. rewrite H. reflexivity. Qed.

(** ** The sink *)

Lemma File_write_working (data : bytes) (log : list bytes) :
  File_write data (working log) = (Returns (len data), working (log ++ [data])).
Proof. reflexivity. Qed.

Lemma File_write_raises (data : bytes) (f f' : File) (e : exn) :
  File_write data f = (Raises e, f') -> e = OSError /\ f' = f.
Proof.
  unfold File_write. destruct (room f); [destruct (_ <=? _)%nat |];
    intros H; inversion H; auto.
Qed.

Lemma _fp_write_working (data : bytes) (log : list bytes) (enc : codec) :
  RecordWriter._fp_write data (RecordWriter.mk (working log) enc)
  = (Returns (len data), RecordWriter.mk (working (log ++ [data])) enc).
Proof. reflexivity. Qed.

Lemma _fp_write_raises (data : bytes) (self self' : RecordWriter.t) (e : exn) :
  RecordWriter._fp_write data self = (Raises e, self') -> e = OSError.
Proof.
  unfold RecordWriter._fp_write.
  destruct (File_write data (RecordWriter._fp self)) as [r fp] eqn:Hw.
  intros H. inversion H; subst.
  apply File_write_raises in Hw. tauto.
Qed.

(** ** write_len *)

(** Whatever the sink does, [write_len] is one [write] of one byte. *)
Lemma write_len_single_write (val : Z) (self : RecordWriter.t) :
  RecordWriter.write_len val self
  = (RecordWriter._fp_write [Z.land val 0x7F] ;; ret tt) self.
Proof.
  unfold RecordWriter.write_len, range.
  cbn [seq map Z.of_nat RecordWriter.write_len_loop].
  change (7 * 0) with 0. rewrite Z.shiftr_0_r.
  rewrite load_uint8_t, bind_lift_Returns.
  rewrite pack_uint8_byte by (pose proof (land_0x7F_range val); lia).
  rewrite bind_lift_Returns.
  rewrite group_high_bit_clear.
  reflexivity.
Qed.

Lemma write_len_working (val : Z) (log : list bytes) (enc : codec) :
  RecordWriter.write_len val (RecordWriter.mk (working log) enc)
  = (Returns tt, RecordWriter.mk (working (log ++ [[Z.land val 0x7F]])) enc).
Proof. rewrite write_len_single_write. reflexivity. Qed.

(** Claim C5.  For every value (the non-negative ones among them),
    [RecordWriter.write_len] is a single [write] of a single byte, the low 7
    bits of the value [val & 0x7F]: the byte tested against 0x80 was masked
    with 0x7F, so the loop always leaves after its first round.  On a sink
    that accepts the write, exactly that byte is appended. *)
Theorem write_len_writes_low_7_bits (val : Z) (self : RecordWriter.t) :
  RecordWriter.write_len val self
  = (RecordWriter._fp_write [Z.land val 0x7F] ;; ret tt) self
  /\ forall (log : list bytes) (enc : codec),
       RecordWriter.write_len val (RecordWriter.mk (working log) enc)
       = (Returns tt, RecordWriter.mk (working (log ++ [[Z.land val 0x7F]])) enc).
Proof.
  split.
  - apply write_len_single_write.
  - intros log enc. apply write_len_working.
Qed.

(** Claim C1, as stated, fails: 128 and 2^28 are past what one 7-bit group
    and what four of them can hold, and [write_len] returns normally on
    both, having written the byte 0x00 that it also writes for 0. *)
Lemma write_len_overflow_not_raised :
  let self := RecordWriter.__init__ (working []) in
  RecordWriter.write_len 128 self
    = (Returns tt, RecordWriter.__init__ (working [[0]]))
  /\ RecordWriter.write_len (2 ^ 28) self
    = (Returns tt, RecordWriter.__init__ (working [[0]]))
  /\ RecordWriter.write_len 0 self
    = (Returns tt, RecordWriter.__init__ (working [[0]]))
  /\ ~ (exists e self', RecordWriter.write_len (2 ^ 28) self = (Raises e, self')).
Proof.
  cbv zeta. unfold RecordWriter.__init__.
  rewrite !write_len_working.
  repeat split.
  intros (e & self' & H). discriminate H.
Qed.

(** Claim C1, amended.  [RecordWriter.write_len] checks no range and has no
    overflow error: for every value, on a sink that accepts the writes, it
    returns normally after one to four writes of one byte each, every byte
    below 0x80 and the first one the low 7 bits of the value. *)
Theorem write_len_never_overflows (val : Z) (log : list bytes) (enc : codec) :
  exists groups : bytes,
    RecordWriter.write_len val (RecordWriter.mk (working log) enc)
    = (Returns tt, RecordWriter.mk (working (log ++ one_by_one groups)) enc)
    /\ (1 <= length groups <= 4)%nat
    /\ Forall (fun g => 0 <= g < 0x80) groups
    /\ head groups = Some (Z.land val 0x7F).
Proof.
  exists [Z.land val 0x7F]. split; [apply write_len_working |].
  split; [cbn [length]; lia |].
  split; [| reflexivity].
  constructor; [apply land_0x7F_range | constructor].
Qed.

(** The only exception [write_len] lets out is the sink's. *)
Lemma write_len_raises (val : Z) (self self' : RecordWriter.t) (e : exn) :
  RecordWriter.write_len val self = (Raises e, self') -> e = OSError.
Proof.
  rewrite write_len_single_write. unfold bind.
  destruct (RecordWriter._fp_write _ self) as [[n | e'] s] eqn:Hw.
  - discriminate.
  - intros H. inversion H; subst. eapply _fp_write_raises, Hw.
Qed.

(** ** write_id *)

Lemma on_writer_write_working (data : bytes) (debug : bool) (log : list bytes)
    (enc : codec) :
  BIFF12Writer.on_writer (RecordWriter.write data)
    (BIFF12Writer.mk debug (RecordWriter.mk (working log) enc))
  = (Returns (len data),
     BIFF12Writer.mk debug (RecordWriter.mk (working (log ++ [data])) enc)).
Proof. reflexivity. Qed.

(** The loop from index [k] on, for [n] more rounds, against the codec of
    the specification started on the value shifted by [k] bytes. *)
Lemma write_id_loop_refines (n : nat) :
  forall (k : nat) (val : Z) (debug : bool) (log : list bytes) (enc : codec),
    BIFF12Writer.write_id_loop val (map Z.of_nat (seq k n))
      (BIFF12Writer.mk debug (RecordWriter.mk (working log) enc))
    = (Returns tt,
       BIFF12Writer.mk debug
         (RecordWriter.mk
            (working (log ++ one_by_one (tag_codec_spec n (Z.shiftr val (8 * Z.of_nat k)))))
            enc)).
Proof.
  induction n as [| n IH]; intros k val debug log enc.
  - cbn [seq map BIFF12Writer.write_id_loop tag_codec_spec one_by_one].
    rewrite app_nil_r. reflexivity.
  - cbn [seq map BIFF12Writer.write_id_loop tag_codec_spec].
    set (byte := Z.land (Z.shiftr val (8 * Z.of_nat k)) 0xFF).
    rewrite load_uint8_t, bind_lift_Returns.
    rewrite pack_uint8_byte by apply land_0xFF_range.
    rewrite bind_lift_Returns.
    erewrite bind_Returns by apply on_writer_write_working.
    destruct (Z.land byte 0x80 =? 0).
    + reflexivity.
    + rewrite IH. rewrite Z.shiftr_shiftr by lia.
      replace (8 * Z.of_nat k + 8) with (8 * Z.of_nat (S k)) by lia.
      unfold one_by_one. cbn [map]. rewrite <- app_assoc. reflexivity.
Qed.

(** Claim C4.  [BIFF12Writer.write_id] writes, one byte per [write], what
    the tag codec of the specification yields in at most 4 steps: the low 8
    bits of the remaining value, then the same on the value shifted right by
    8 bits, as long as the byte just emitted has its high bit set.  So 0 is
    the single byte 0x00, 0x7F is one byte, 0x80 is two bytes of which the
    first has the top bit set, and 0xFFFFFFFF is four bytes. *)
Theorem write_id_refines_tag_codec (val : Z) (debug : bool) (log : list bytes)
    (enc : codec) :
  BIFF12Writer.write_id val
    (BIFF12Writer.mk debug (RecordWriter.mk (working log) enc))
  = (Returns tt,
     BIFF12Writer.mk debug
       (RecordWriter.mk (working (log ++ one_by_one (tag_codec_spec 4 val))) enc))
  /\ tag_codec_spec 4 0 = [0x00]
  /\ tag_codec_spec 4 0x7F = [0x7F]
  /\ tag_codec_spec 4 0x80 = [0x80; 0x00]
  /\ tag_codec_spec 4 0xFFFFFFFF = [0xFF; 0xFF; 0xFF; 0xFF].
Proof.
  split.
  - unfold BIFF12Writer.write_id, range.
    rewrite write_id_loop_refines.
    change (8 * Z.of_nat 0) with 0. rewrite Z.shiftr_0_r. reflexivity.
  - repeat split; vm_compute; reflexivity.
Qed.

(** ** write_int *)

Lemma write_int_working (n : Z) (log : list bytes) (enc : codec) :
  0 <= n <= 0xFFFFFFFF ->
  RecordWriter.write_int (PyInt n) false (RecordWriter.mk (working log) enc)
  = (Returns tt, RecordWriter.mk (working (log ++ [le_bytes 4 n])) enc).
Proof.
  intros Hn. unfold RecordWriter.write_int.
  rewrite load_uint32_t, bind_lift_Returns.
  rewrite pack_uint32_in_range by exact Hn.
  rewrite bind_lift_Returns. reflexivity.
Qed.

(** [write_int] lets out the packer's [struct.error] and the sink's
    [OSError], nothing else. *)
Lemma write_int_raises (val : pyobj) (do_write_len : bool)
    (self self' : RecordWriter.t) (e : exn) :
  RecordWriter.write_int val do_write_len self = (Raises e, self') ->
  e = struct_error \/ e = OSError.
Proof.
  unfold RecordWriter.write_int.
  rewrite load_uint32_t, bind_lift_Returns.
  unfold pack, Struct_pack.
  destruct (pack_int 4 0 0xFFFFFFFF val) as [payload | e0] eqn:Hp.
  - rewrite bind_lift_Returns. unfold bind at 1.
    destruct (when do_write_len _ self) as [[[] | e1] s1] eqn:Hw.
    + unfold bind.
      destruct (RecordWriter._fp_write payload s1) as [[n | e2] s2] eqn:Hf.
      * discriminate.
      * intros H. inversion H; subst. right. eapply _fp_write_raises, Hf.
    + intros H. inversion H; subst. right.
      destruct do_write_len; [| discriminate Hw].
      eapply write_len_raises, Hw.
  - rewrite bind_lift_Raises. intros H. inversion H; subst.
    left. eapply pack_int_raises, Hp.
Qed.

(** ** write_string *)

Lemma lstrip_BOM_mark (data : bytes) : lstrip BOM (BOM ++ data) = lstrip BOM data.
Proof. reflexivity. Qed.

Lemma lstrip_BOM_clean (s : pystr) :
  starts_clean s = true ->
  lstrip BOM (utf_16_le_encode s) = utf_16_le_encode s.
Proof.
  unfold starts_clean. destruct (utf_16_le_encode s) as [| b rest]; [reflexivity |].
  intros H. cbn [lstrip]. apply negb_true_iff in H. rewrite H. reflexivity.
Qed.

(** With the mark gone, what is left of a clean text is its UTF-16LE
    encoding, whether or not the codec put a mark in front. *)
Lemma lstrip_encode_clean (enc : codec) (s : pystr) :
  starts_clean s = true ->
  lstrip BOM (str_encode enc s) = utf_16_le_encode s.
Proof.
  intros H. destruct enc; unfold str_encode.
  - rewrite lstrip_BOM_mark. apply lstrip_BOM_clean, H.
  - apply lstrip_BOM_clean, H.
Qed.

(** On a [str] the [try] never sees an [AttributeError]: the method is the
    count through [write_int], then the payload. *)
Lemma write_string_str (s : pystr) (self : RecordWriter.t) :
  RecordWriter.write_string (PyStr s) self
  = (let data := lstrip BOM (str_encode (RecordWriter._enc self) s) in
     RecordWriter.write_int (PyInt (len data / 2)) false ;;
     RecordWriter._fp_write data ;;
     ret tt) self.
Proof.
  unfold RecordWriter.write_string, try_except.
  cbn [encode]. rewrite bind_lift_Returns. cbv zeta.
  set (data := lstrip BOM _).
  unfold bind at 1 3.
  destruct (RecordWriter.write_int _ false self) as [[[] | e] s1] eqn:Hi.
  - unfold bind.
    destruct (RecordWriter._fp_write data s1) as [[n | e] s2] eqn:Hf.
    + reflexivity.
    + apply _fp_write_raises in Hf. subst e. reflexivity.
  - apply write_int_raises in Hi. destruct Hi; subst e; reflexivity.
Qed.

Lemma write_string_str_raises (s : pystr) (self self' : RecordWriter.t) (e : exn) :
  RecordWriter.write_string (PyStr s) self = (Raises e, self') ->
  e = struct_error \/ e = OSError.
Proof.
  rewrite write_string_str. cbv zeta. unfold bind at 1.
  destruct (RecordWriter.write_int _ false self) as [[[] | e1] s1] eqn:Hi.
  - unfold bind.
    destruct (RecordWriter._fp_write _ s1) as [[n | e2] s2] eqn:Hf.
    + discriminate.
    + intros H. inversion H; subst. right. eapply _fp_write_raises, Hf.
  - intros H. inversion H; subst. eapply write_int_raises, Hi.
Qed.

(** Anything that is not a [str] has no [encode]: the handler runs. *)
Lemma write_string_not_str (obj : pyobj) (self : RecordWriter.t) :
  (forall s, obj <> PyStr s) ->
  RecordWriter.write_string obj self = RecordWriter.write_int obj false self.
Proof.
  intros Hobj. unfold RecordWriter.write_string, try_except.
  destruct obj; try reflexivity. exfalso. eapply Hobj. reflexivity.
Qed.

(** The encoder itself yields whole code units. *)
Lemma utf_16_le_encode_even (s : pystr) :
  exists units : nat, length (utf_16_le_encode s) = (2 * units)%nat.
Proof.
  induction s as [| c s [units IH]].
  - exists 0%nat. reflexivity.
  - unfold utf_16_le_encode in *. cbn [flat_map]. rewrite length_app, IH.
    unfold encode_code_point.
    destruct (_ && _); [| destruct (c <? 0x10000)].
    + exists (S units). cbn [code_unit length]. lia.
    + exists (S units). cbn [code_unit length]. lia.
    + exists (S (S units)). rewrite length_app. cbn [code_unit length]. lia.
Qed.

(** Claim C2, on the text made of the one character U+00FF.  Its encoding
    is FF FE FF 00; [lstrip] takes the mark and also the FF that begins the
    character, so the payload written is the single byte 00: an odd number
    of bytes, under a count of 0 units, and not the encoding of the text. *)
Theorem write_string_odd_payload :
  exists payload : bytes,
    RecordWriter.write_string (PyStr [0xFF]) (RecordWriter.__init__ (working []))
    = (Returns tt, RecordWriter.__init__ (working [le_bytes 4 0; payload]))
    /\ str_encode utf_16 [0xFF] = BOM ++ [0xFF; 0x00]
    /\ payload = [0x00]
    /\ Z.even (len payload) = false.
Proof.
  exists [0x00]. repeat split; vm_compute; reflexivity.
Qed.

(** Claim C6, on the text made of the one character U+4EFF.  Its
    UTF-16LE encoding is FF 4E, one code unit.  [lstrip] takes the mark and
    also the FF that begins the character: the count written is 0, not 1,
    and what follows it is the single byte 4E, not the encoded text. *)
Theorem write_string_count_and_payload_off :
  RecordWriter.write_string (PyStr [0x4EFF]) (RecordWriter.__init__ (working []))
  = (Returns tt, RecordWriter.__init__ (working [le_bytes 4 0; [0x4E]]))
  /\ utf_16_le_encode [0x4EFF] = [0xFF; 0x4E]
  /\ utf_16_units [0x4EFF] = 1.
Proof. repeat split; vm_compute; reflexivity. Qed.

(** Property X22.  What [write_string] does put down, for every text whose
    unit count fits the 32-bit field: two writes, the unit count (the byte
    length of the payload divided by 2) as the 4 little-endian bytes of
    [uint32_t], not the one-byte groups of [write_len], and then the
    payload, the encoded text after [lstrip].  For a text whose encoding
    does not begin with a byte of the mark, the payload is its UTF-16LE
    encoding. *)
Theorem write_string_count_is_fixed_width (s : pystr) (log : list bytes)
    (enc : codec) :
  let data := lstrip BOM (str_encode enc s) in
  len data / 2 <= 0xFFFFFFFF ->
  RecordWriter.write_string (PyStr s) (RecordWriter.mk (working log) enc)
  = (Returns tt,
     RecordWriter.mk (working (log ++ [le_bytes 4 (len data / 2); data])) enc)
  /\ length (le_bytes 4 (len data / 2)) = 4%nat
  /\ (starts_clean s = true -> data = utf_16_le_encode s).
Proof.
  intros data Hfit. split; [| split].
  - rewrite write_string_str. cbv zeta. cbn [RecordWriter._enc]. fold data.
    erewrite bind_Returns.
    2:{ apply write_int_working. split; [| exact Hfit].
        apply Z.div_pos; [unfold len; lia | lia]. }
    cbv beta. erewrite bind_Returns by apply _fp_write_working.
    rewrite <- app_assoc. reflexivity.
  - apply length_le_bytes.
  - intros Hclean. apply lstrip_encode_clean, Hclean.
Qed.

Lemma write_string_count_is_fixed_width_witness :
  RecordWriter.write_string (PyStr [72; 105]) (RecordWriter.mk (working []) utf_16)
  = (Returns tt,
     RecordWriter.mk (working [[2; 0; 0; 0]; [72; 0; 105; 0]]) utf_16).
Proof.
  refine (proj1 (write_string_count_is_fixed_width [72; 105] [] utf_16 _)).
  vm_compute. discriminate.
Defined.

(** Claim C7.  An integer that is an index (it fits the 32-bit field) goes
    through [write_string] and through [write_obj_str] as one write of its
    4 little-endian bytes: no encoding, no unit count, no characters. *)
Theorem shared_string_index_written_alone (object_str : pyobj -> pystr)
    (n : Z) (log : list bytes) (enc : codec) :
  0 <= n <= 0xFFFFFFFF ->
  RecordWriter.write_string (PyInt n) (RecordWriter.mk (working log) enc)
  = (Returns tt, RecordWriter.mk (working (log ++ [le_bytes 4 n])) enc)
  /\ RecordWriter.write_obj_str object_str (PyInt n)
       (RecordWriter.mk (working log) enc)
  = (Returns tt, RecordWriter.mk (working (log ++ [le_bytes 4 n])) enc).
Proof.
  intros Hn. split.
  - rewrite write_string_not_str by discriminate.
    apply write_int_working, Hn.
  - unfold RecordWriter.write_obj_str, try_except.
    cbn [isinstance_int negb assert].
    rewrite (bind_Raises (raise AssertionError) _ _ _ AssertionError eq_refl).
    cbn [exn_eqb]. apply write_int_working, Hn.
Qed.

Lemma shared_string_index_written_alone_witness :
  RecordWriter.write_string (PyInt 258) (RecordWriter.mk (working []) utf_16)
  = (Returns tt, RecordWriter.mk (working [[2; 1; 0; 0]]) utf_16)
  /\ RecordWriter.write_obj_str (fun _ => []) (PyInt 258)
       (RecordWriter.mk (working []) utf_16)
  = (Returns tt, RecordWriter.mk (working [[2; 1; 0; 0]]) utf_16).
Proof.
  apply (shared_string_index_written_alone (fun _ => []) 258 [] utf_16). lia.
Defined.

(** ** write_float *)

(** Claim C3, on [write_float].  Whatever the value, the length flag and
    the sink, the body starts by reading the name [struct], which the
    module does not bind: the call raises [NameError] and writes nothing. *)
Theorem write_float_raises_NameError (val : pyobj) (do_write_len : bool)
    (self : RecordWriter.t) :
  RecordWriter.write_float val do_write_len self
  = (Raises (NameError "struct"), self).
Proof.
  unfold RecordWriter.write_float. rewrite load_struct. reflexivity.
Qed.

(** ** write_bytes *)

(** Claim C10.  [BIFF12Writer.write_bytes] first writes the byte count the
    way [write_len] does, then the bytes in one write; for no bytes at all
    the second write does not happen, and the sink has the encoded length
    only. *)
Theorem write_bytes_length_then_data (data : bytes) (debug : bool)
    (log : list bytes) (enc : codec) :
  let self := BIFF12Writer.mk debug (RecordWriter.mk (working log) enc) in
  exists prefix : list bytes,
    RecordWriter.write_len (len data) (BIFF12Writer._writer self)
    = (Returns tt, RecordWriter.mk (working (log ++ prefix)) enc)
    /\ BIFF12Writer.write_bytes (PyBytes data) self
    = (Returns tt,
       BIFF12Writer.mk debug
         (RecordWriter.mk
            (working (log ++ prefix ++ match data with [] => [] | _ => [data] end))
            enc)).
Proof.
  intros self. exists [[Z.land (len data) 0x7F]]. split.
  - apply write_len_working.
  - unfold BIFF12Writer.write_bytes, self.
    erewrite bind_Returns.
    2:{ unfold BIFF12Writer.on_writer. cbn [BIFF12Writer._writer].
        rewrite write_len_working. reflexivity. }
    destruct data as [| b data].
    + cbn [app]. reflexivity.
    + replace (len (b :: data) =? 0) with false
        by (symmetry; apply Z.eqb_neq; unfold len; cbn [length]; lia).
      cbn [negb when].
      erewrite bind_Returns by apply on_writer_write_working.
      rewrite <- app_assoc. reflexivity.
Qed.

(** ** SemiflexibleHandlers *)

Section Handlers.

Import SemiflexibleHandlers.

Implicit Types (self : gmap dictkey entry) (key : pykey) (value : entry).
Implicit Types (k : dictkey).

(** An instance of one of the four classes has a hash, and never shares
    its slot with a class object. *)
Lemma instance_slot key (c : builtins.class) :
  isinstance key c = true ->
  exists k, slot key = Some k /\ forall name, k <> DClass name.
Proof.
  destruct key as [name | d | v id | cls]; [destruct c; discriminate .. | |
    destruct c; discriminate].
  intros _. destruct v; cbn [slot];
    try (eexists; split; [reflexivity | discriminate]).
  destruct (float_as_integer bits);
    [eexists; split; [reflexivity | discriminate] |].
  destruct (decode_binary64 bits);
    eexists; (split; [reflexivity | discriminate]).
Qed.

Lemma slot_class_key (c : builtins.class) :
  exists name, slot (class_key c) = Some (DClass name).
Proof. destruct c; eexists; reflexivity. Qed.

Lemma setitem_slot key k value self :
  slot key = Some k -> setitem key value self = (Returns tt, <[k := value]> self).
Proof. intros Hs. unfold setitem. rewrite Hs. reflexivity. Qed.

(** A key without a hash: [TypeError], whatever the table and the depth. *)
Lemma getitem_unhashable (depth : nat) self key :
  slot key = None -> getitem depth self key = Some (Raises TypeError, self).
Proof. intros Hs. destruct depth; cbn [getitem]; rewrite Hs; reflexivity. Qed.

(** A key that is stored is answered from the table, at any depth. *)
Lemma getitem_stored (depth : nat) self key k value :
  slot key = Some k ->
  self !! k = Some value ->
  getitem depth self key = Some (Returns value, self).
Proof.
  intros Hs H. destruct depth; cbn [getitem]; rewrite Hs, H; reflexivity.
Qed.

(** A key that is not stored goes to [__missing__]. *)
Lemma getitem_missing (depth : nat) self key k :
  slot key = Some k ->
  self !! k = None ->
  getitem (S depth) self key = __missing__ (getitem depth) self key.
Proof. intros Hs H. cbn [getitem]. rewrite Hs, H. reflexivity. Qed.

(** The lookup of a class object inside [__missing__]: the entry stored
    for it or, failing that and with a level of nesting left, the generic
    entry, stored on the way. *)
Lemma getitem_class_key (depth : nat) self (c : builtins.class) r self' :
  getitem depth self (class_key c) = Some (r, self') ->
  exists name value,
    slot (class_key c) = Some (DClass name)
    /\ r = Returns value
    /\ ((self !! DClass name = Some value /\ self' = self)
        \/ (self !! DClass name = None
            /\ value = (biff12.STRING, write_obj_str_m)
            /\ self' = <[DClass name := value]> self)).
Proof.
  destruct (slot_class_key c) as [name Hs]. intros H. exists name.
  destruct (self !! DClass name) as [v |] eqn:Hl.
  - rewrite (getitem_stored _ _ _ _ _ Hs Hl) in H. inversion H; subst.
    exists v. auto.
  - destruct depth; [cbn [getitem] in H; rewrite Hs, Hl in H; discriminate |].
    rewrite (getitem_missing _ _ _ _ Hs Hl) in H.
    unfold __missing__ in H.
    replace (isinstance (class_key c) builtins.int) with false in H
      by (destruct c; reflexivity).
    replace (isinstance (class_key c) builtins.float) with false in H
      by (destruct c; reflexivity).
    replace (isinstance (class_key c) builtins.bool) with false in H
      by (destruct c; reflexivity).
    replace (isinstance (class_key c) builtins.str) with false in H
      by (destruct c; reflexivity).
    cbv zeta in H. rewrite (setitem_slot _ _ _ _ Hs) in H.
    cbn [and_then] in H. inversion H; subst.
    eexists. split; [exact Hs |]. split; [reflexivity |]. right. auto.
Qed.

Lemma getitem_class_key_total (depth : nat) self (c : builtins.class) :
  exists value self',
    getitem (S depth) self (class_key c) = Some (Returns value, self').
Proof.
  destruct (slot_class_key c) as [name Hs].
  destruct (self !! DClass name) as [v |] eqn:Hl.
  - rewrite (getitem_stored _ _ _ _ _ Hs Hl). eauto.
  - rewrite (getitem_missing _ _ _ _ Hs Hl). unfold __missing__.
    replace (isinstance (class_key c) builtins.int) with false
      by (destruct c; reflexivity).
    replace (isinstance (class_key c) builtins.float) with false
      by (destruct c; reflexivity).
    replace (isinstance (class_key c) builtins.bool) with false
      by (destruct c; reflexivity).
    replace (isinstance (class_key c) builtins.str) with false
      by (destruct c; reflexivity).
    cbv zeta. rewrite (setitem_slot _ _ _ _ Hs). cbn [and_then]. eauto.
Qed.

(** The three ways the lookup of a key that has a hash ends, all of them
    with a pair: the key is stored; or it is an instance of one of the four
    classes and gets what the class resolves to (the entry stored for the
    class or, when the class itself is missing, the generic pair, which is
    then stored for the class too); or it gets the generic pair. *)
Lemma getitem_shape (depth : nat) self key k r self' :
  slot key = Some k ->
  getitem depth self key = Some (r, self') ->
  exists value,
    r = Returns value
    /\ ((self !! k = Some value /\ self' = self)
        \/ (self !! k = None
            /\ exists (c : builtins.class) (name : string),
                 isinstance key c = true
                 /\ slot (class_key c) = Some (DClass name)
                 /\ k <> DClass name
                 /\ ((self !! DClass name = Some value
                      /\ self' = <[k := value]> self)
                     \/ (self !! DClass name = None
                         /\ value = (biff12.STRING, write_obj_str_m)
                         /\ self' = <[k := value]>
                                      (<[DClass name := value]> self))))
        \/ (self !! k = None
            /\ value = (biff12.STRING, write_obj_str_m)
            /\ self' = <[k := value]> self)).
Proof.
  intros Hs H.
  destruct (self !! k) as [v |] eqn:Hk.
  { rewrite (getitem_stored _ _ _ _ _ Hs Hk) in H. inversion H; subst.
    exists v. auto. }
  destruct depth; [cbn [getitem] in H; rewrite Hs, Hk in H; discriminate |].
  rewrite (getitem_missing _ _ _ _ Hs Hk) in H.
  assert (Hbase : forall c : builtins.class,
    isinstance key c = true ->
    and_then (getitem depth self (class_key c)) (fun value self =>
      and_then (Some (setitem key value self)) (fun _ self =>
      Some (Returns value, self))) = Some (r, self') ->
    exists value,
      r = Returns value
      /\ exists (c : builtins.class) (name : string),
           isinstance key c = true
           /\ slot (class_key c) = Some (DClass name)
           /\ k <> DClass name
           /\ ((self !! DClass name = Some value
                /\ self' = <[k := value]> self)
               \/ (self !! DClass name = None
                   /\ value = (biff12.STRING, write_obj_str_m)
                   /\ self' = <[k := value]>
                                (<[DClass name := value]> self)))).
  { intros c Hc Hrun.
    destruct (getitem depth self (class_key c)) as [[r1 s1] |] eqn:Hg;
      [| discriminate].
    apply getitem_class_key in Hg as (name & v1 & Hsc & -> & Hcase).
    cbn [and_then] in Hrun. rewrite (setitem_slot _ _ _ _ Hs) in Hrun.
    cbn [and_then] in Hrun. inversion Hrun; subst.
    exists v1. split; [reflexivity |]. exists c, name.
    split; [exact Hc |]. split; [exact Hsc |]. split.
    - apply instance_slot in Hc as (k' & Hk' & Hne).
      rewrite Hs in Hk'. inversion Hk'; subst. apply Hne.
    - destruct Hcase as [[Hl ->] | (Hl & -> & ->)]; auto. }
  unfold __missing__ in H.
  destruct (isinstance key builtins.int) eqn:Hint.
  { destruct (Hbase _ Hint H) as (v & -> & Hrest). exists v. eauto 10. }
  destruct (isinstance key builtins.float) eqn:Hfloat.
  { destruct (Hbase _ Hfloat H) as (v & -> & Hrest). exists v. eauto 10. }
  destruct (isinstance key builtins.bool) eqn:Hbool.
  { destruct (Hbase _ Hbool H) as (v & -> & Hrest). exists v. eauto 10. }
  destruct (isinstance key builtins.str) eqn:Hstr.
  { destruct (Hbase _ Hstr H) as (v & -> & Hrest). exists v. eauto 10. }
  cbv zeta in H. rewrite (setitem_slot _ _ _ _ Hs) in H.
  cbn [and_then] in H. inversion H; subst.
  eexists. split; [reflexivity |]. right; right. auto.
Qed.

(** A resolution stores its result under the key and leaves every entry
    that was there untouched. *)
Lemma getitem_extends (depth : nat) self key k value self' :
  slot key = Some k ->
  getitem depth self key = Some (Returns value, self') ->
  self ⊆ self' /\ self' !! k = Some value.
Proof.
  intros Hs H.
  apply (getitem_shape _ _ _ _ _ _ Hs) in H as (v & Hv & Hcase).
  inversion Hv; subst v.
  destruct Hcase
    as [[Hk ->]
       | [(Hk & c & name & Hc & Hsc & Hne & [[Hl ->] | (Hl & -> & ->)])
         | (Hk & -> & ->)]].
  - split; [reflexivity | exact Hk].
  - split; [apply insert_subseteq, Hk | apply lookup_insert_eq].
  - split; [| apply lookup_insert_eq].
    etransitivity; [apply insert_subseteq, Hl |].
    apply insert_subseteq. rewrite lookup_insert_ne; [exact Hk | congruence].
  - split; [apply insert_subseteq, Hk | apply lookup_insert_eq].
Qed.

(** With room for one nested lookup, [self[key]] returns a pair for every
    key that has a hash. *)
Lemma getitem_total (depth : nat) self key k :
  slot key = Some k ->
  exists value self',
    getitem (S (S depth)) self key = Some (Returns value, self').
Proof.
  intros Hs. destruct (self !! k) as [v |] eqn:Hk.
  { rewrite (getitem_stored _ _ _ _ _ Hs Hk). eauto. }
  rewrite (getitem_missing _ _ _ _ Hs Hk). unfold __missing__.
  assert (Hnested : forall c : builtins.class,
    exists value self',
      and_then (getitem (S depth) self (class_key c)) (fun value self =>
        and_then (Some (setitem key value self)) (fun _ self =>
        Some (Returns value, self))) = Some (Returns value, self')).
  { intros c. destruct (getitem_class_key_total depth self c) as (v & s & Hg).
    rewrite Hg. cbn [and_then]. rewrite (setitem_slot _ _ _ _ Hs).
    cbn [and_then]. eauto. }
  destruct (isinstance key builtins.int); [apply Hnested |].
  destruct (isinstance key builtins.float); [apply Hnested |].
  destruct (isinstance key builtins.bool); [apply Hnested |].
  destruct (isinstance key builtins.str); [apply Hnested |].
  cbv zeta. rewrite (setitem_slot _ _ _ _ Hs). cbn [and_then]. eauto.
Qed.

(** Claim C8.  Resolving a key (one that has a hash, as every type has)
    returns a pair and leaves it stored under that very key; resolving the
    key again returns the same pair from the table, which it leaves as it
    is (whatever the depth allowed: nothing is classified again); and
    every slot that had an entry before a resolution still has that entry,
    tag and encoder, after it. *)
Theorem resolution_is_cached (depth : nat) self key k :
  slot key = Some k ->
  exists value self',
    getitem (S (S depth)) self key = Some (Returns value, self')
    /\ self' !! k = Some value
    /\ (forall depth', getitem depth' self' key = Some (Returns value, self'))
    /\ (forall k0 value0,
          self !! k0 = Some value0 ->
          self' !! k0 = Some value0).
Proof.
  intros Hs.
  destruct (getitem_total depth self key k Hs) as (value & self' & H).
  exists value, self'. split; [exact H |].
  apply (getitem_extends _ _ _ _ _ _ Hs) in H as [Hsub Hk].
  split; [exact Hk |]. split.
  - intros depth'. apply (getitem_stored _ _ _ _ _ Hs Hk).
  - intros k0 value0 Ho. eapply lookup_weaken; eauto.
Qed.


End Handlers.

(** *** A fresh table, on three keys *)

Lemma fresh_table_int :
  SemiflexibleHandlers.__init__ true !! DClass "int"
  = Some (biff12.FLOAT, write_double_m).
Proof. vm_compute. reflexivity. Qed.

Lemma fresh_table_True :
  SemiflexibleHandlers.__init__ true !! DNum 1 = None.
Proof. vm_compute. reflexivity. Qed.


(** [True] misses in a fresh table, is classified as an [int] and gets the
    entry of [int]. *)
Lemma fresh_table_resolves_True (id : positive) :
  SemiflexibleHandlers.getitem 2 (SemiflexibleHandlers.__init__ true)
    (KValue (PyBool true) id)
  = Some (Returns (biff12.FLOAT, write_double_m),
          <[DNum 1 := (biff12.FLOAT, write_double_m)]>
            (SemiflexibleHandlers.__init__ true)).
Proof.
  rewrite (getitem_missing 1 _ (KValue (PyBool true) id) (DNum 1) eq_refl
             fresh_table_True).
  unfold SemiflexibleHandlers.__missing__. cbn [isinstance].
  rewrite (getitem_stored 1 _ (class_key builtins.int) (DClass "int") _
             eq_refl fresh_table_int).
  reflexivity.
Qed.

Lemma resolution_is_cached_witness :
  exists value self',
    SemiflexibleHandlers.getitem 2 (SemiflexibleHandlers.__init__ true)
      (KValue (PyBool true) 1) = Some (Returns value, self')
    /\ self' !! DNum 1 = Some value
    /\ self' !! DClass "int" = Some (biff12.FLOAT, write_double_m).
Proof.
  destruct (resolution_is_cached 0 (SemiflexibleHandlers.__init__ true)
              (KValue (PyBool true) 1) (DNum 1) eq_refl)
    as (value & self' & H1 & H2 & _ & H4).
  exists value, self'. split; [exact H1 |]. split; [exact H2 |].
  exact (H4 (DClass "int") _ fresh_table_int).
Defined.



(** * Further properties *)

(** ** The primitive writers *)

Lemma load_uint16_t : load_global "uint16_t" = Returns (GStruct fmt_H).
Proof. reflexivity. Qed.

Lemma load_double_t : load_global "double_t" = Returns (GStruct fmt_d).
Proof. reflexivity. Qed.

Lemma land_0x7F_small (v : Z) : 0 <= v < 0x80 -> Z.land v 0x7F = v.
Proof.
  intros Hv. change 0x7F with (Z.ones 7). rewrite Z.land_ones by lia.
  apply Z.mod_small. change (2 ^ 7) with 0x80. exact Hv.
Qed.

(** What every primitive writer does once the payload is packed: the
    length, if asked for, then the payload. *)
Lemma write_payload_working (payload : bytes) (do_write_len : bool)
    (log : list bytes) (enc : codec) :
  0 <= len payload < 0x80 ->
  (when do_write_len (RecordWriter.write_len (len payload)) ;;
   RecordWriter._fp_write payload ;;
   ret tt) (RecordWriter.mk (working log) enc)
  = (Returns tt,
     RecordWriter.mk
       (working (log ++ (if do_write_len then [[len payload]] else []) ++ [payload]))
       enc).
Proof.
  intros Hlen. destruct do_write_len; cbn [when].
  - erewrite bind_Returns by apply write_len_working.
    rewrite land_0x7F_small by exact Hlen.
    erewrite bind_Returns by apply _fp_write_working.
    rewrite <- app_assoc. reflexivity.
  - reflexivity.
Qed.

Lemma write_packed_working (fmt : structfmt) (val : pyobj) (do_write_len : bool)
    (log : list bytes) (enc : codec) :
  (payload <- lift (pack (GStruct fmt) val) ;;
   when do_write_len (RecordWriter.write_len (len payload)) ;;
   RecordWriter._fp_write payload ;;
   ret tt) (RecordWriter.mk (working log) enc)
  = match Struct_pack fmt val with
    | Returns payload =>
        (Returns tt,
         RecordWriter.mk
           (working (log ++ (if do_write_len then [[len payload]] else [])
                         ++ [payload])) enc)
    | Raises e => (Raises e, RecordWriter.mk (working log) enc)
    end.
Proof.
  cbn [pack]. destruct (Struct_pack fmt val) as [payload | e] eqn:Hp.
  - rewrite bind_lift_Returns. apply write_payload_working.
    apply Struct_pack_width in Hp. unfold len. rewrite Hp.
    destruct fmt; cbn; lia.
  - reflexivity.
Qed.

(** Property X1.  On a sink that accepts the writes, [write_byte],
    [write_short], [write_int] and [write_double] behave alike: a value the
    packer takes is written as its payload, after one byte holding the
    payload's length (1, 2, 4 or 8) when [do_write_len] is set; a value
    the packer refuses raises the packer's exception with nothing written,
    whatever [do_write_len] says. *)
Theorem primitive_writers_frame (val : pyobj) (do_write_len : bool)
    (log : list bytes) (enc : codec) :
  let self := RecordWriter.mk (working log) enc in
  let framed (fmt : structfmt) (width : Z) :=
    match Struct_pack fmt val with
    | Returns payload =>
        (Returns tt,
         RecordWriter.mk
           (working (log ++ (if do_write_len then [[width]] else []) ++ [payload]))
           enc)
    | Raises e => (Raises e, self)
    end in
  RecordWriter.write_byte val do_write_len self = framed fmt_B 1
  /\ RecordWriter.write_short val do_write_len self = framed fmt_H 2
  /\ RecordWriter.write_int val do_write_len self = framed fmt_I 4
  /\ RecordWriter.write_double val do_write_len self = framed fmt_d 8.
Proof.
  cbv zeta.
  assert (Hframe : forall fmt,
    (payload <- lift (pack (GStruct fmt) val) ;;
     when do_write_len (RecordWriter.write_len (len payload)) ;;
     RecordWriter._fp_write payload ;;
     ret tt) (RecordWriter.mk (working log) enc)
    = match Struct_pack fmt val with
      | Returns payload =>
          (Returns tt,
           RecordWriter.mk
             (working (log ++ (if do_write_len
                               then [[Z.of_nat
                                        match fmt with
                                        | fmt_B => 1 | fmt_H => 2
                                        | fmt_i | fmt_I | fmt_f => 4 | fmt_d => 8
                                        end%nat]]
                               else []) ++ [payload])) enc)
      | Raises e => (Raises e, RecordWriter.mk (working log) enc)
      end).
  { intros fmt. rewrite write_packed_working.
    destruct (Struct_pack fmt val) as [payload | e] eqn:Hp; [| reflexivity].
    apply Struct_pack_width in Hp. unfold len. rewrite Hp. reflexivity. }
  repeat split.
  - unfold RecordWriter.write_byte.
    rewrite load_uint8_t, bind_lift_Returns. apply (Hframe fmt_B).
  - unfold RecordWriter.write_short.
    rewrite load_uint16_t, bind_lift_Returns. apply (Hframe fmt_H).
  - unfold RecordWriter.write_int.
    rewrite load_uint32_t, bind_lift_Returns. apply (Hframe fmt_I).
  - unfold RecordWriter.write_double.
    rewrite load_double_t, bind_lift_Returns. apply (Hframe fmt_d).
Qed.

(** ** Little-endian payloads *)

Lemma le_value_le_bytes_from (w : nat) :
  forall (k : nat) (v : Z),
    le_value (map (fun i => Z.land (Z.shiftr v (8 * Z.of_nat i)) 0xFF) (seq k w))
    = Z.shiftr v (8 * Z.of_nat k) mod 2 ^ (8 * Z.of_nat w).
Proof.
  induction w as [| w IH]; intros k v.
  - cbn [seq map le_value]. change (2 ^ (8 * Z.of_nat 0)) with 1.
    rewrite Z.mod_1_r. reflexivity.
  - cbn [seq map le_value]. rewrite IH.
    set (a := Z.shiftr v (8 * Z.of_nat k)).
    replace (Z.shiftr v (8 * Z.of_nat (S k))) with (a / 256).
    2:{ unfold a. replace (8 * Z.of_nat (S k)) with (8 * Z.of_nat k + 8) by lia.
        rewrite <- Z.shiftr_shiftr by lia.
        rewrite (Z.shiftr_div_pow2 _ 8) by lia. reflexivity. }
    change 0xFF with (Z.ones 8). rewrite Z.land_ones by lia.
    change (2 ^ 8) with 256.
    replace (2 ^ (8 * Z.of_nat (S w))) with (256 * 2 ^ (8 * Z.of_nat w)).
    2:{ replace (8 * Z.of_nat (S w)) with (8 + 8 * Z.of_nat w) by lia.
        rewrite Z.pow_add_r by lia. reflexivity. }
    symmetry. apply Z.rem_mul_r; [lia |].
    apply Z.pow_pos_nonneg; lia.
Qed.

Lemma le_value_le_bytes (w : nat) (v : Z) :
  le_value (le_bytes w v) = v mod 2 ^ (8 * Z.of_nat w).
Proof.
  unfold le_bytes. rewrite le_value_le_bytes_from.
  change (8 * Z.of_nat 0) with 0. rewrite Z.shiftr_0_r. reflexivity.
Qed.

Lemma le_bytes_are_bytes (w : nat) (v : Z) :
  Forall (fun b => 0 <= b < 0x100) (le_bytes w v).
Proof.
  unfold le_bytes. apply Forall_map, Forall_forall.
  intros i _. apply land_0xFF_range.
Qed.

(** Property X2.  An integer that fits 32 bits is written by [write_int] as
    4 bytes that, read back least significant byte first, give the integer:
    nothing of it is lost, and two different integers are written
    differently. *)
Theorem write_int_round_trip (n : Z) (log : list bytes) (enc : codec) :
  0 <= n <= 0xFFFFFFFF ->
  exists payload : bytes,
    RecordWriter.write_int (PyInt n) false (RecordWriter.mk (working log) enc)
    = (Returns tt, RecordWriter.mk (working (log ++ [payload])) enc)
    /\ length payload = 4%nat
    /\ Forall (fun b => 0 <= b < 0x100) payload
    /\ le_value payload = n.
Proof.
  intros Hn. exists (le_bytes 4 n).
  split; [apply write_int_working, Hn |].
  split; [apply length_le_bytes |].
  split; [apply le_bytes_are_bytes |].
  rewrite le_value_le_bytes. apply Z.mod_small.
  change (2 ^ (8 * Z.of_nat 4)) with 0x100000000. lia.
Qed.

Lemma write_int_round_trip_witness :
  exists payload : bytes,
    RecordWriter.write_int (PyInt 258) false (RecordWriter.mk (working []) utf_16)
    = (Returns tt, RecordWriter.mk (working ([] ++ [payload])) utf_16)
    /\ length payload = 4%nat
    /\ Forall (fun b => 0 <= b < 0x100) payload
    /\ le_value payload = 258.
Proof. apply (write_int_round_trip 258 [] utf_16). lia. Defined.

(** ** write_len, again *)

(** Property X3.  The byte [write_len] writes is the length itself exactly
    when the length is between 0 and 127: every other length is put down
    as a different number. *)
Theorem write_len_exact_iff (val : Z) (log : list bytes) (enc : codec) :
  RecordWriter.write_len val (RecordWriter.mk (working log) enc)
  = (Returns tt, RecordWriter.mk (working (log ++ [[val]])) enc)
  <-> 0 <= val < 0x80.
Proof.
  rewrite write_len_working. split.
  - intros H. inversion H as [Hlog]. apply app_inv_head in Hlog.
    inversion Hlog as [Hval]. rewrite <- Hval at 1 2. apply land_0x7F_range.
  - intros Hval. rewrite land_0x7F_small by exact Hval. reflexivity.
Qed.

Lemma write_len_exact_iff_witness :
  RecordWriter.write_len 5 (RecordWriter.mk (working []) utf_16)
  = (Returns tt, RecordWriter.mk (working ([] ++ [[5]])) utf_16).
Proof. apply (proj2 (write_len_exact_iff 5 [] utf_16)). lia. Defined.

(** ** write_bytes, again *)

(** Property X4.  The length byte that [BIFF12Writer.write_bytes] puts
    before the data is the byte count modulo 128; it is the byte count
    itself exactly when there are fewer than 128 bytes. *)
Theorem write_bytes_declared_length (data : bytes) (debug : bool)
    (log : list bytes) (enc : codec) :
  exists declared : Z,
    BIFF12Writer.write_bytes (PyBytes data)
      (BIFF12Writer.mk debug (RecordWriter.mk (working log) enc))
    = (Returns tt,
       BIFF12Writer.mk debug
         (RecordWriter.mk
            (working (log ++ [[declared]]
                          ++ match data with [] => [] | _ => [data] end))
            enc))
    /\ declared = len data mod 128
    /\ (declared = len data <-> len data < 128).
Proof.
  exists (Z.land (len data) 0x7F).
  assert (Hmod : Z.land (len data) 0x7F = len data mod 128).
  { change 0x7F with (Z.ones 7). rewrite Z.land_ones by lia. reflexivity. }
  split; [| split; [exact Hmod |]].
  - unfold BIFF12Writer.write_bytes.
    erewrite bind_Returns.
    2:{ unfold BIFF12Writer.on_writer. cbn [BIFF12Writer._writer].
        rewrite write_len_working. reflexivity. }
    destruct data as [| b data].
    + reflexivity.
    + replace (len (b :: data) =? 0) with false
        by (symmetry; apply Z.eqb_neq; unfold len; cbn [length]; lia).
      cbn [negb when].
      erewrite bind_Returns by apply on_writer_write_working.
      rewrite <- app_assoc. reflexivity.
  - rewrite Hmod. assert (0 <= len data) by (unfold len; lia). split.
    + intros Heq. pose proof (Z.mod_pos_bound (len data) 128). lia.
    + intros Hlt. apply Z.mod_small. lia.
Qed.

Lemma write_bytes_declared_length_witness :
  BIFF12Writer.write_bytes (PyBytes [7; 8; 9])
    (BIFF12Writer.mk false (RecordWriter.mk (working []) utf_16))
  = (Returns tt,
     BIFF12Writer.mk false
       (RecordWriter.mk (working [[3]; [7; 8; 9]]) utf_16)).
Proof.
  destruct (write_bytes_declared_length [7; 8; 9] false [] utf_16)
    as (declared & Hrun & _ & Hexact).
  rewrite Hrun.
  rewrite (proj2 Hexact) by (vm_compute; reflexivity).
  reflexivity.
Defined.

(** Property X5.  Nothing is taken back after a failure: on a sink that
    has room for the length byte and not for the data, [write_bytes] raises
    the sink's [OSError] and the length byte stays written. *)
Theorem write_bytes_keeps_partial_write (data : bytes) (debug : bool)
    (log : list bytes) (n : nat) (enc : codec) :
  (1 <= n < 1 + length data)%nat ->
  BIFF12Writer.write_bytes (PyBytes data)
    (BIFF12Writer.mk debug (RecordWriter.mk (mkFile log (Some n)) enc))
  = (Raises OSError,
     BIFF12Writer.mk debug
       (RecordWriter.mk
          (mkFile (log ++ [[Z.land (len data) 0x7F]]) (Some (n - 1)%nat)) enc)).
Proof.
  intros Hn. unfold BIFF12Writer.write_bytes.
  erewrite bind_Returns.
  2:{ unfold BIFF12Writer.on_writer. cbn [BIFF12Writer._writer].
      rewrite write_len_single_write.
      unfold bind, RecordWriter._fp_write, File_write.
      cbn [RecordWriter._fp RecordWriter._enc room written length].
      replace (1 <=? n)%nat with true by (symmetry; apply Nat.leb_le; lia).
      reflexivity. }
  replace (len data =? 0) with false
    by (symmetry; apply Z.eqb_neq; unfold len; lia).
  cbn [negb when].
  erewrite bind_Raises; [reflexivity |].
  unfold BIFF12Writer.on_writer, RecordWriter.write, RecordWriter._fp_write,
    File_write.
  cbn [BIFF12Writer._writer BIFF12Writer._debug RecordWriter._fp
       RecordWriter._enc room written].
  replace (length data <=? n - 1)%nat with false
    by (symmetry; apply Nat.leb_gt; lia).
  reflexivity.
Qed.

Lemma write_bytes_keeps_partial_write_witness :
  BIFF12Writer.write_bytes (PyBytes [7; 8; 9])
    (BIFF12Writer.mk false (RecordWriter.mk (mkFile [] (Some 2%nat)) utf_16))
  = (Raises OSError,
     BIFF12Writer.mk false
       (RecordWriter.mk
          (mkFile ([] ++ [[Z.land (len [7; 8; 9]) 0x7F]]) (Some (2 - 1)%nat))
          utf_16)).
Proof.
  apply (write_bytes_keeps_partial_write [7; 8; 9] false [] 2 utf_16).
  cbn [length]. lia.
Defined.

(** ** write_id, again *)

Lemma high_bit_clear_iff (b : Z) :
  0 <= b < 0x100 -> (Z.land b 0x80 = 0 <-> b < 0x80).
Proof.
  intros Hb. split.
  - intros Hclear.
    rewrite <- (land_0xFF_small b Hb).
    change 0xFF with (Z.lor 0x7F 0x80).
    rewrite Z.land_lor_distr_r, Hclear, Z.lor_0_r.
    apply land_0x7F_range.
  - intros Hlt. rewrite <- (land_0x7F_small b) by lia.
    apply group_high_bit_clear.
Qed.

Lemma high_bit_test (b : Z) :
  0 <= b < 0x100 -> (Z.land b 0x80 =? 0) = (b <? 0x80).
Proof.
  intros Hb. destruct (b <? 0x80) eqn:Hlt.
  - apply Z.eqb_eq, high_bit_clear_iff; [exact Hb | apply Z.ltb_lt, Hlt].
  - apply Z.eqb_neq. intros Hclear.
    apply high_bit_clear_iff in Hclear; [| exact Hb].
    apply Z.ltb_ge in Hlt. lia.
Qed.

Lemma low_byte_of_sum (b r : Z) :
  0 <= b < 0x100 -> Z.land (b + 256 * r) 0xFF = b.
Proof.
  intros Hb. change 0xFF with (Z.ones 8). rewrite Z.land_ones by lia.
  change (2 ^ 8) with 256.
  replace (b + 256 * r) with (b + r * 256) by lia.
  rewrite Z.mod_add by lia.
  apply Z.mod_small. exact Hb.
Qed.

Lemma high_bytes_of_sum (b r : Z) :
  0 <= b < 0x100 -> Z.shiftr (b + 256 * r) 8 = r.
Proof.
  intros Hb. rewrite Z.shiftr_div_pow2 by lia. change (2 ^ 8) with 256.
  rewrite (Z.mul_comm 256 r), Z.div_add by lia.
  rewrite Z.div_small by exact Hb. reflexivity.
Qed.

(** The codec gives back the bytes of a well-formed tag. *)
Lemma tag_codec_of_wellformed (steps : nat) :
  forall bs : bytes,
    tag_wellformed steps bs = true ->
    tag_codec_spec steps (le_value bs) = bs.
Proof.
  induction steps as [| steps IH]; intros bs Hwf.
  - destruct bs; discriminate Hwf.
  - destruct bs as [| b [| b2 rest]].
    + destruct steps; discriminate Hwf.
    + assert (Hb : 0 <= b < 0x100 /\ (steps = O \/ b < 0x80)).
      { destruct steps; cbn [tag_wellformed] in Hwf;
          apply andb_true_iff in Hwf as [H1 H2];
          apply Z.leb_le in H1; apply Z.ltb_lt in H2; lia. }
      destruct Hb as [Hb Hlast].
      cbn [le_value tag_codec_spec].
      rewrite low_byte_of_sum by exact Hb.
      destruct Hlast as [-> | Hlt].
      * cbn [tag_codec_spec]. destruct (_ =? 0); reflexivity.
      * rewrite high_bit_test by exact Hb.
        replace (b <? 0x80) with true by (symmetry; apply Z.ltb_lt, Hlt).
        reflexivity.
    + assert (Hb : 0x80 <= b < 0x100 /\ tag_wellformed steps (b2 :: rest) = true).
      { destruct steps; cbn [tag_wellformed] in Hwf.
        - apply andb_true_iff in Hwf as [_ Hwf]. discriminate Hwf.
        - apply andb_true_iff in Hwf as [Hwf Hrest].
          apply andb_true_iff in Hwf as [H1 H2].
          apply Z.leb_le in H1; apply Z.ltb_lt in H2. split; [lia | exact Hrest]. }
      destruct Hb as [Hb Hrest].
      change (le_value (b :: b2 :: rest)) with (b + 256 * le_value (b2 :: rest)).
      cbn [tag_codec_spec].
      rewrite low_byte_of_sum, high_bytes_of_sum by lia.
      rewrite high_bit_test by lia.
      replace (b <? 0x80) with false by (symmetry; apply Z.ltb_ge; lia).
      rewrite IH by exact Hrest. reflexivity.
Qed.

(** What the codec yields is a well-formed tag. *)
Lemma tag_codec_wellformed (steps : nat) :
  forall val : Z, tag_wellformed (S steps) (tag_codec_spec (S steps) val) = true.
Proof.
  induction steps as [| steps IH]; intros val.
  - cbn [tag_codec_spec]. pose proof (land_0xFF_range val) as Hb.
    destruct (_ =? 0); cbn [tag_wellformed];
      apply andb_true_iff; split; [apply Z.leb_le | apply Z.ltb_lt | apply Z.leb_le | apply Z.ltb_lt]; lia.
  - change (tag_codec_spec (S (S steps)) val)
      with (Z.land val 0xFF
            :: (if Z.land (Z.land val 0xFF) 0x80 =? 0
                then []
                else tag_codec_spec (S steps) (Z.shiftr val 8))).
    pose proof (land_0xFF_range val) as Hb.
    rewrite high_bit_test by exact Hb.
    destruct (Z.land val 0xFF <? 0x80) eqn:Hlt.
    + cbn [tag_wellformed]. apply Z.ltb_lt in Hlt.
      apply andb_true_iff; split; [apply Z.leb_le | apply Z.ltb_lt]; lia.
    + specialize (IH (Z.shiftr val 8)).
      destruct (tag_codec_spec (S steps) (Z.shiftr val 8)) as [| b2 rest] eqn:Hrest.
      * cbn [tag_codec_spec] in Hrest. discriminate Hrest.
      * apply Z.ltb_ge in Hlt.
        change (tag_wellformed (S (S steps)) (Z.land val 0xFF :: b2 :: rest))
          with ((0x80 <=? Z.land val 0xFF) && (Z.land val 0xFF <? 0x100)
                && tag_wellformed (S steps) (b2 :: rest)).
        rewrite IH.
        replace (0x80 <=? Z.land val 0xFF) with true
          by (symmetry; apply Z.leb_le; lia).
        replace (Z.land val 0xFF <? 0x100) with true
          by (symmetry; apply Z.ltb_lt; lia).
        reflexivity.
Qed.

Lemma write_id_working (val : Z) (debug : bool) (log : list bytes) (enc : codec) :
  BIFF12Writer.write_id val
    (BIFF12Writer.mk debug (RecordWriter.mk (working log) enc))
  = (Returns tt,
     BIFF12Writer.mk debug
       (RecordWriter.mk (working (log ++ one_by_one (tag_codec_spec 4 val))) enc)).
Proof.
  unfold BIFF12Writer.write_id, range. rewrite write_id_loop_refines.
  change (8 * Z.of_nat 0) with 0. rewrite Z.shiftr_0_r. reflexivity.
Qed.

(** Property X6.  A tag given by well-formed bytes (continuation bit on
    every byte but the last, at most 4 bytes) is written by [write_id] as
    exactly those bytes, one per write: reading the bytes back as a
    little-endian number gives the tag. *)
Theorem write_id_round_trip (bs : bytes) (debug : bool) (log : list bytes)
    (enc : codec) :
  tag_wellformed 4 bs = true ->
  BIFF12Writer.write_id (le_value bs)
    (BIFF12Writer.mk debug (RecordWriter.mk (working log) enc))
  = (Returns tt,
     BIFF12Writer.mk debug
       (RecordWriter.mk (working (log ++ one_by_one bs)) enc)).
Proof.
  intros Hwf. rewrite write_id_working.
  rewrite tag_codec_of_wellformed by exact Hwf. reflexivity.
Qed.

(** The tag 0x019C is the two bytes 9C 01. *)
Lemma write_id_round_trip_witness :
  BIFF12Writer.write_id (le_value [0x9C; 0x01])
    (BIFF12Writer.mk false (RecordWriter.mk (working []) utf_16))
  = (Returns tt,
     BIFF12Writer.mk false
       (RecordWriter.mk (working ([] ++ one_by_one [0x9C; 0x01])) utf_16)).
Proof.
  apply (write_id_round_trip [0x9C; 0x01] false [] utf_16). reflexivity.
Defined.

(** Property X7.  For every integer, [write_id] on a sink that accepts the
    writes returns normally after writing a well-formed tag: between 1 and
    4 bytes, the high bit set on each byte that another one follows and,
    short of the fourth byte, clear on the last. *)
Theorem write_id_writes_wellformed (val : Z) (debug : bool) (log : list bytes)
    (enc : codec) :
  exists bs : bytes,
    BIFF12Writer.write_id val
      (BIFF12Writer.mk debug (RecordWriter.mk (working log) enc))
    = (Returns tt,
       BIFF12Writer.mk debug
         (RecordWriter.mk (working (log ++ one_by_one bs)) enc))
    /\ tag_wellformed 4 bs = true
    /\ (1 <= length bs <= 4)%nat.
Proof.
  exists (tag_codec_spec 4 val).
  split; [apply write_id_working |].
  split; [apply tag_codec_wellformed |].
  cbn [tag_codec_spec].
  repeat (destruct (_ =? 0); [cbn [length]; lia |]).
  cbn [length]. lia.
Qed.

(** Property X8.  When bit 7 of the value is clear, [write_id] writes one
    byte, the low 7 bits, and nothing of the higher bytes: such a tag is
    written like its low 7 bits alone. *)
Theorem write_id_drops_high_bytes (val : Z) (debug : bool) (log : list bytes)
    (enc : codec) :
  Z.land val 0x80 = 0 ->
  BIFF12Writer.write_id val
    (BIFF12Writer.mk debug (RecordWriter.mk (working log) enc))
  = (Returns tt,
     BIFF12Writer.mk debug
       (RecordWriter.mk (working (log ++ [[Z.land val 0x7F]])) enc)).
Proof.
  intros Hclear. rewrite write_id_working. cbn [tag_codec_spec].
  rewrite <- (Z.land_assoc val 0xFF 0x80).
  change (Z.land 0xFF 0x80) with 0x80. rewrite Hclear.
  change (0 =? 0) with true. cbv iota.
  change 0xFF with (Z.lor 0x7F 0x80).
  rewrite Z.land_lor_distr_r, Hclear, Z.lor_0_r. reflexivity.
Qed.

(** 0x17F has bit 7 clear: it is written as 7F, like 0x7F. *)
Lemma write_id_drops_high_bytes_witness :
  BIFF12Writer.write_id 0x17F
    (BIFF12Writer.mk false (RecordWriter.mk (working []) utf_16))
  = (Returns tt,
     BIFF12Writer.mk false
       (RecordWriter.mk (working ([] ++ [[Z.land 0x17F 0x7F]])) utf_16)).
Proof.
  apply (write_id_drops_high_bytes 0x17F false [] utf_16). reflexivity.
Defined.

Lemma tag_codec_mod (steps : nat) :
  forall val : Z,
    tag_codec_spec steps (val mod 2 ^ (8 * Z.of_nat steps))
    = tag_codec_spec steps val.
Proof.
  induction steps as [| steps IH]; intros val; [reflexivity |].
  cbn [tag_codec_spec].
  replace (2 ^ (8 * Z.of_nat (S steps))) with (256 * 2 ^ (8 * Z.of_nat steps)).
  2:{ replace (8 * Z.of_nat (S steps)) with (8 + 8 * Z.of_nat steps) by lia.
      rewrite Z.pow_add_r by lia. reflexivity. }
  assert (Hpos : 0 < 2 ^ (8 * Z.of_nat steps)) by (apply Z.pow_pos_nonneg; lia).
  rewrite Z.rem_mul_r by lia.
  pose proof (Z.mod_pos_bound val 256 ltac:(lia)) as Hlow.
  rewrite low_byte_of_sum, high_bytes_of_sum by exact Hlow.
  rewrite Z.shiftr_div_pow2 by lia. change (2 ^ 8) with 256.
  rewrite IH.
  change 0xFF with (Z.ones 8). rewrite !Z.land_ones by lia.
  reflexivity.
Qed.

(** Property X9.  [write_id] looks at the low 32 bits of the value only: a
    tag beyond 32 bits, or a negative one, is written like its residue
    modulo 2^32, without an error. *)
Theorem write_id_modulo_2_32 (val : Z) (debug : bool) (log : list bytes)
    (enc : codec) :
  BIFF12Writer.write_id val
    (BIFF12Writer.mk debug (RecordWriter.mk (working log) enc))
  = BIFF12Writer.write_id (val mod 2 ^ 32)
      (BIFF12Writer.mk debug (RecordWriter.mk (working log) enc)).
Proof.
  rewrite !write_id_working.
  change (2 ^ 32) with (2 ^ (8 * Z.of_nat 4)).
  rewrite (tag_codec_mod 4 val). reflexivity.
Qed.

(** ** write_string, again *)

Lemma write_string_working (s : pystr) (log : list bytes) (enc : codec) :
  len (lstrip BOM (str_encode enc s)) / 2 <= 0xFFFFFFFF ->
  RecordWriter.write_string (PyStr s) (RecordWriter.mk (working log) enc)
  = (Returns tt,
     RecordWriter.mk
       (working (log ++ [le_bytes 4 (len (lstrip BOM (str_encode enc s)) / 2);
                         lstrip BOM (str_encode enc s)])) enc).
Proof.
  intros Hfit. rewrite write_string_str. cbv zeta. cbn [RecordWriter._enc].
  erewrite bind_Returns.
  2:{ apply write_int_working. split; [| exact Hfit].
      apply Z.div_pos; [unfold len; lia | lia]. }
  cbv beta. erewrite bind_Returns by apply _fp_write_working.
  rewrite <- app_assoc. reflexivity.
Qed.

Lemma lstrip_either_codec (s : pystr) :
  lstrip BOM (str_encode utf_16 s) = lstrip BOM (str_encode utf_16_le s).
Proof. apply lstrip_BOM_mark. Qed.

(** Property X10.  A U+FEFF at the head of the text itself goes the way of
    the mark: the text with it and the text without it are written alike,
    on any sink and under either codec. *)
Theorem write_string_drops_leading_FEFF (s : pystr) (self : RecordWriter.t) :
  RecordWriter.write_string (PyStr (0xFEFF :: s)) self
  = RecordWriter.write_string (PyStr s) self.
Proof.
  rewrite !write_string_str. cbv zeta.
  replace (lstrip BOM (str_encode (RecordWriter._enc self) (0xFEFF :: s)))
    with (lstrip BOM (str_encode (RecordWriter._enc self) s)); [reflexivity |].
  destruct (RecordWriter._enc self); reflexivity.
Qed.

(** Property X11.  Whether the codec is the one that puts a mark in front
    ([utf-16]) or the one that does not ([utf-16-le]), the sink receives
    the same two writes. *)
Theorem write_string_same_under_both_codecs (s : pystr) (log : list bytes) :
  len (lstrip BOM (str_encode utf_16 s)) / 2 <= 0xFFFFFFFF ->
  exists out : list bytes,
    RecordWriter.write_string (PyStr s) (RecordWriter.mk (working log) utf_16)
    = (Returns tt, RecordWriter.mk (working out) utf_16)
    /\ RecordWriter.write_string (PyStr s) (RecordWriter.mk (working log) utf_16_le)
    = (Returns tt, RecordWriter.mk (working out) utf_16_le).
Proof.
  intros Hfit. eexists. split.
  - apply write_string_working, Hfit.
  - rewrite write_string_working by (rewrite <- lstrip_either_codec; exact Hfit).
    rewrite <- lstrip_either_codec. reflexivity.
Qed.

Lemma write_string_same_under_both_codecs_witness :
  exists out : list bytes,
    RecordWriter.write_string (PyStr [72; 105]) (RecordWriter.mk (working []) utf_16)
    = (Returns tt, RecordWriter.mk (working out) utf_16)
    /\ RecordWriter.write_string (PyStr [72; 105])
         (RecordWriter.mk (working []) utf_16_le)
    = (Returns tt, RecordWriter.mk (working out) utf_16_le).
Proof.
  apply (write_string_same_under_both_codecs [72; 105] []).
  vm_compute. discriminate.
Defined.

Lemma len_utf_16_le_encode (s : pystr) :
  len (utf_16_le_encode s) = 2 * utf_16_units s.
Proof.
  unfold len. induction s as [| c s IH]; [reflexivity |].
  unfold utf_16_le_encode in *. cbn [flat_map utf_16_units fold_right].
  fold (utf_16_units s). rewrite length_app, Nat2Z.inj_add, IH.
  unfold encode_code_point, code_units, is_surrogate.
  destruct (_ && _); [| destruct (c <? 0x10000)];
    rewrite ?length_app; cbn [code_unit length]; lia.
Qed.

(** Property X12.  For a text whose encoding does not begin with a byte of
    the mark, the count [write_string] writes is the number of UTF-16 code
    units of the text (one per code point of the basic plane, two beyond
    it), and the payload has exactly twice as many bytes. *)
Theorem write_string_counts_code_units (s : pystr) (log : list bytes)
    (enc : codec) :
  starts_clean s = true ->
  utf_16_units s <= 0xFFFFFFFF ->
  RecordWriter.write_string (PyStr s) (RecordWriter.mk (working log) enc)
  = (Returns tt,
     RecordWriter.mk
       (working (log ++ [le_bytes 4 (utf_16_units s); utf_16_le_encode s])) enc)
  /\ len (utf_16_le_encode s) = 2 * utf_16_units s.
Proof.
  intros Hclean Hfit. split; [| apply len_utf_16_le_encode].
  assert (Hdata : lstrip BOM (str_encode enc s) = utf_16_le_encode s)
    by (apply lstrip_encode_clean, Hclean).
  assert (Hcount : len (utf_16_le_encode s) / 2 = utf_16_units s).
  { rewrite len_utf_16_le_encode, Z.mul_comm. apply Z.div_mul. lia. }
  rewrite write_string_working; rewrite Hdata, Hcount; [reflexivity | exact Hfit].
Qed.

(** Two code points: H (one unit) and U+1F600 (two units), 3 in all. *)
Lemma write_string_counts_code_units_witness :
  RecordWriter.write_string (PyStr [72; 0x1F600])
    (RecordWriter.mk (working []) utf_16)
  = (Returns tt,
     RecordWriter.mk
       (working ([] ++ [le_bytes 4 (utf_16_units [72; 0x1F600]);
                        utf_16_le_encode [72; 0x1F600]])) utf_16).
Proof.
  apply (write_string_counts_code_units [72; 0x1F600] [] utf_16).
  - reflexivity.
  - vm_compute. discriminate.
Defined.

Lemma encode_replace_surrogates (s : pystr) :
  utf_16_le_encode (replace_surrogates s) = utf_16_le_encode s.
Proof.
  unfold utf_16_le_encode, replace_surrogates.
  induction s as [| c s IH]; [reflexivity |].
  cbn [map flat_map]. rewrite IH. f_equal.
  destruct (is_surrogate c) eqn:Hs; [| reflexivity].
  unfold encode_code_point at 2. unfold is_surrogate in Hs. rewrite Hs.
  reflexivity.
Qed.

(** Property X13.  A lone surrogate in the text does not stop
    [write_string]: the text is written as if each one were a question
    mark. *)
Theorem write_string_replaces_surrogates (s : pystr) (self : RecordWriter.t) :
  RecordWriter.write_string (PyStr s) self
  = RecordWriter.write_string (PyStr (replace_surrogates s)) self.
Proof.
  rewrite !write_string_str. cbv zeta.
  replace (str_encode (RecordWriter._enc self) (replace_surrogates s))
    with (str_encode (RecordWriter._enc self) s); [reflexivity |].
  unfold str_encode. rewrite encode_replace_surrogates. reflexivity.
Qed.

(** Property X14.  A value that is neither a [str] nor an integer that fits
    32 bits ([None], a [float], a [bytes], an object, a negative or too
    large integer) makes [write_string] raise [struct.error], with nothing
    written, whatever the sink. *)
Theorem write_string_rejects (obj : pyobj) (self : RecordWriter.t) :
  (forall s, obj <> PyStr s) ->
  (forall n, as_index obj = Some n -> n < 0 \/ 0xFFFFFFFF < n) ->
  RecordWriter.write_string obj self = (Raises struct_error, self).
Proof.
  intros Hstr Hidx. rewrite write_string_not_str by exact Hstr.
  unfold RecordWriter.write_int. rewrite load_uint32_t, bind_lift_Returns.
  cbn [pack Struct_pack]. unfold pack_int.
  destruct (as_index obj) as [n |] eqn:Hn; [| reflexivity].
  replace ((0 <=? n) && (n <=? 0xFFFFFFFF)) with false; [reflexivity |].
  symmetry. apply andb_false_iff.
  destruct (Hidx n eq_refl); [left; apply Z.leb_gt | right; apply Z.leb_gt]; lia.
Qed.

Lemma write_string_rejects_witness :
  RecordWriter.write_string PyNone (RecordWriter.__init__ (working []))
  = (Raises struct_error, RecordWriter.__init__ (working [])).
Proof.
  apply (write_string_rejects PyNone); [discriminate | discriminate].
Defined.

(** ** What the text writers let out *)

Lemma write_string_raises (obj : pyobj) (self self' : RecordWriter.t) (e : exn) :
  RecordWriter.write_string obj self = (Raises e, self') ->
  e = struct_error \/ e = OSError.
Proof.
  destruct obj;
    try (rewrite write_string_not_str by discriminate; apply write_int_raises).
  apply write_string_str_raises.
Qed.

(** Property X15.  Neither the [AttributeError] nor the [AssertionError]
    that the text writers use inside ever comes out: whatever the value and
    the sink, [write_string] and [write_obj_str] raise nothing but the
    packer's [struct.error] and the sink's [OSError]. *)
Theorem text_writers_raise_only (object_str : pyobj -> pystr) (obj : pyobj)
    (self self' : RecordWriter.t) (e : exn) :
  RecordWriter.write_string obj self = (Raises e, self')
  \/ RecordWriter.write_obj_str object_str obj self = (Raises e, self') ->
  e = struct_error \/ e = OSError.
Proof.
  intros [H | H]; [eapply write_string_raises, H |].
  unfold RecordWriter.write_obj_str, try_except in H.
  destruct (isinstance_int obj); cbn [negb assert] in H.
  - rewrite (bind_Raises (raise AssertionError) _ _ _ AssertionError eq_refl) in H.
    cbn [exn_eqb] in H. eapply write_int_raises, H.
  - rewrite bind_lift_Returns_ret in H.
    destruct (RecordWriter.write_string _ self) as [[[] | e0] s0] eqn:Hw;
      [discriminate H |].
    apply write_string_raises in Hw.
    destruct Hw; subst e0; cbn [exn_eqb] in H; inversion H; auto.
Qed.

Lemma text_writers_raise_only_witness :
  RecordWriter.write_string (PyInt (-1)) (RecordWriter.__init__ (working []))
  = (Raises struct_error, RecordWriter.__init__ (working []))
  /\ (struct_error = struct_error \/ struct_error = OSError).
Proof.
  split; [reflexivity |].
  apply (text_writers_raise_only (fun _ => []) (PyInt (-1))
           (RecordWriter.__init__ (working [])) (RecordWriter.__init__ (working []))).
  left. reflexivity.
Defined.

(** Property X16.  A [bool] is an [int]: through [write_string] and through
    [write_obj_str] it is written as the 32-bit integer 1 or 0, not as
    text. *)
Theorem text_writers_on_bool (object_str : pyobj -> pystr) (b : bool)
    (log : list bytes) (enc : codec) :
  let out := (Returns tt,
              RecordWriter.mk (working (log ++ [[Z.b2z b; 0; 0; 0]])) enc) in
  RecordWriter.write_string (PyBool b) (RecordWriter.mk (working log) enc) = out
  /\ RecordWriter.write_obj_str object_str (PyBool b)
       (RecordWriter.mk (working log) enc) = out.
Proof.
  cbv zeta.
  assert (Hint : RecordWriter.write_int (PyBool b) false
                   (RecordWriter.mk (working log) enc)
                 = (Returns tt,
                    RecordWriter.mk (working (log ++ [[Z.b2z b; 0; 0; 0]])) enc)).
  { destruct b; reflexivity. }
  split.
  - rewrite write_string_not_str by discriminate. exact Hint.
  - unfold RecordWriter.write_obj_str, try_except.
    cbn [isinstance_int negb assert].
    rewrite (bind_Raises (raise AssertionError) _ _ _ AssertionError eq_refl).
    cbn [exn_eqb]. exact Hint.
Qed.

(** ** SemiflexibleHandlers, again *)

Section Resolution.

Import SemiflexibleHandlers.

Implicit Types (self : gmap dictkey entry) (key : pykey) (value : entry).
Implicit Types (k : dictkey).

(** Property X17.  A lookup invents no pair: what it returns, and every
    entry of the table it leaves, is an entry the table had or the generic
    pair ([biff12.STRING], [RecordWriter.write_obj_str]). *)
Theorem resolution_invents_nothing (depth : nat) self key value self' :
  getitem depth self key = Some (Returns value, self') ->
  let known (v : entry) :=
    v = (biff12.STRING, write_obj_str_m) \/ exists k, self !! k = Some v in
  known value /\ forall k v, self' !! k = Some v -> known v.
Proof.
  intros H known. unfold known.
  assert (Hins : forall (m : gmap dictkey entry) k0 v0,
    (v0 = (biff12.STRING, write_obj_str_m) \/ exists k, self !! k = Some v0) ->
    (forall k v, m !! k = Some v ->
       v = (biff12.STRING, write_obj_str_m) \/ exists k, self !! k = Some v) ->
    forall k v, <[k0 := v0]> m !! k = Some v ->
      v = (biff12.STRING, write_obj_str_m) \/ exists k, self !! k = Some v).
  { intros m k0 v0 Hv0 Hm k v Hl.
    destruct (decide (k0 = k)) as [-> | Hne].
    - rewrite lookup_insert_eq in Hl. inversion Hl; subst. exact Hv0.
    - rewrite lookup_insert_ne in Hl by exact Hne. eapply Hm, Hl. }
  assert (Hself : forall k v, self !! k = Some v ->
    v = (biff12.STRING, write_obj_str_m) \/ exists k, self !! k = Some v)
    by eauto.
  destruct (slot key) as [k |] eqn:Hs;
    [| rewrite (getitem_unhashable _ _ _ Hs) in H; discriminate H].
  apply (getitem_shape _ _ _ _ _ _ Hs) in H as (v & Hv & Hcase).
  inversion Hv; subst v.
  destruct Hcase
    as [[Hk ->]
       | [(Hk & c & name & Hc & Hsc & Hne & [[Hl ->] | (Hl & -> & ->)])
         | (Hk & -> & ->)]].
  - split; [eauto | exact Hself].
  - split; [eauto |]. apply Hins; eauto.
  - split; [auto |]. apply Hins; [auto |]. apply Hins; auto.
  - split; [auto |]. apply Hins; auto.
Qed.

Lemma resolution_invents_nothing_witness :
  (biff12.FLOAT, write_double_m) = (biff12.STRING, write_obj_str_m)
  \/ exists k, SemiflexibleHandlers.__init__ true !! k
               = Some (biff12.FLOAT, write_double_m).
Proof.
  exact (proj1 (resolution_invents_nothing 2 (SemiflexibleHandlers.__init__ true)
                  (KValue (PyBool true) 1) _ _ (fresh_table_resolves_True 1))).
Defined.

(** Property X18.  A lookup fills slots that were empty and no other: the
    slot of the key and, at most, the slot of one of the classes [int],
    [float], [bool], [str], the same class for the whole table; every other
    slot reads as before.  So a lookup adds two entries at most. *)
Theorem resolution_fills_empty_slots (depth : nat) self key r self' :
  getitem depth self key = Some (r, self') ->
  exists c : builtins.class,
    forall k,
      self' !! k = self !! k
      \/ (self !! k = None
          /\ (slot key = Some k \/ slot (class_key c) = Some k)).
Proof.
  intros H.
  destruct (slot key) as [k0 |] eqn:Hs.
  2:{ rewrite (getitem_unhashable _ _ _ Hs) in H. inversion H; subst.
      exists builtins.int. intros k. left. reflexivity. }
  destruct (getitem_shape _ _ _ _ _ _ Hs H) as (v & Hv & Hcase).
  clear H.
  destruct Hcase
    as [[Hk ->]
       | [(Hk & c & name & Hc & Hsc & Hne & [[Hl ->] | (Hl & -> & ->)])
         | (Hk & -> & ->)]].
  - exists builtins.int. intros k. left. reflexivity.
  - exists c. intros k.
    destruct (decide (k0 = k)) as [<- | Hne0]; [right; auto |].
    left. apply lookup_insert_ne, Hne0.
  - exists c. intros k.
    destruct (decide (k0 = k)) as [<- | Hne0]; [right; auto |].
    rewrite lookup_insert_ne by exact Hne0.
    destruct (decide (DClass name = k)) as [<- | Hne']; [right; auto |].
    left. apply lookup_insert_ne, Hne'.
  - exists builtins.int. intros k.
    destruct (decide (k0 = k)) as [<- | Hne0]; [right; auto |].
    left. apply lookup_insert_ne, Hne0.
Qed.

(** The lookup of [True] in a fresh table. *)
Lemma resolution_fills_empty_slots_witness :
  exists c : builtins.class,
    forall k,
      <[DNum 1 := (biff12.FLOAT, write_double_m)]>
        (SemiflexibleHandlers.__init__ true) !! k
      = SemiflexibleHandlers.__init__ true !! k
      \/ (SemiflexibleHandlers.__init__ true !! k = None
          /\ (slot (KValue (PyBool true) 1) = Some k
              \/ slot (class_key c) = Some k)).
Proof.
  exact (resolution_fills_empty_slots 2 (SemiflexibleHandlers.__init__ true)
           (KValue (PyBool true) 1) _ _ (fresh_table_resolves_True 1)).
Defined.

End Resolution.

(** *** Fresh tables *)

Lemma fresh_table_bool_value (np b : bool) :
  SemiflexibleHandlers.__init__ np !! DNum (Z.b2z b) = None.
Proof. destruct np, b; vm_compute; reflexivity. Qed.

Lemma fresh_table_int_class (np : bool) :
  SemiflexibleHandlers.__init__ np !! DClass "int"
  = Some (biff12.FLOAT, write_double_m).
Proof. destruct np; vm_compute; reflexivity. Qed.

Lemma fresh_table_bool_class (np : bool) :
  SemiflexibleHandlers.__init__ np !! DClass "bool"
  = Some (biff12.BOOL, write_byte_m).
Proof. destruct np; vm_compute; reflexivity. Qed.

(** Property X19.  Every instance of [bool] is an instance of [int], and
    [__missing__] asks about [int] first: its branch for [bool] is never
    taken.  So a [bool] used as a key of a fresh table gets the entry of
    [int], ([biff12.FLOAT], [write_double]), while the class [bool] holds
    ([biff12.BOOL], [write_byte]). *)
Theorem bool_key_resolves_as_int (np b : bool) (id : positive) (depth : nat) :
  (forall key, isinstance key builtins.bool = true ->
               isinstance key builtins.int = true)
  /\ SemiflexibleHandlers.getitem (S (S depth)) (SemiflexibleHandlers.__init__ np)
       (KValue (PyBool b) id)
     = Some (Returns (biff12.FLOAT, write_double_m),
             <[DNum (Z.b2z b) := (biff12.FLOAT, write_double_m)]>
               (SemiflexibleHandlers.__init__ np))
  /\ slot (class_key builtins.bool) = Some (DClass "bool")
  /\ SemiflexibleHandlers.__init__ np !! DClass "bool"
     = Some (biff12.BOOL, write_byte_m).
Proof.
  split; [| split; [| split]].
  - intros [name | d | [] id' | cls]; try discriminate. reflexivity.
  - rewrite (getitem_missing (S depth) _ (KValue (PyBool b) id) (DNum (Z.b2z b))
               eq_refl (fresh_table_bool_value np b)).
    unfold SemiflexibleHandlers.__missing__. cbn [isinstance].
    rewrite (getitem_stored (S depth) _ (class_key builtins.int) (DClass "int") _
               eq_refl (fresh_table_int_class np)).
    reflexivity.
  - reflexivity.
  - apply fresh_table_bool_class.
Qed.

Lemma fresh_table_float_dtypes (d : dtype) :
  d = np_float32 \/ d = np_float16 ->
  SemiflexibleHandlers.__init__ true !! DDtype d
  = Some (biff12.FLOAT, write_float_m).
Proof. intros [-> | ->]; vm_compute; reflexivity. Qed.

(** Property X20.  With numpy, the dtypes [float32] and [float16] are
    registered with [write_float]: a lookup returns that encoder and leaves
    the table alone, and calling the encoder, on any value and any writer,
    raises [NameError] and writes nothing. *)
Theorem float_dtype_entries_raise (d : dtype) (depth : nat)
    (object_str : pyobj -> pystr) (obj : pyobj) (w : RecordWriter.t) :
  d = np_float32 \/ d = np_float16 ->
  exists e : encoder,
    SemiflexibleHandlers.getitem depth (SemiflexibleHandlers.__init__ true)
      (KDtype d)
    = Some (Returns (biff12.FLOAT, e), SemiflexibleHandlers.__init__ true)
    /\ call object_str e obj w = (Raises (NameError "struct"), w).
Proof.
  intros Hd. exists write_float_m. split.
  - apply (getitem_stored _ _ (KDtype d) (DDtype d) _ eq_refl).
    apply fresh_table_float_dtypes, Hd.
  - cbn [call]. unfold RecordWriter.write_float. rewrite load_struct. reflexivity.
Qed.

Lemma float_dtype_entries_raise_witness :
  exists e : encoder,
    SemiflexibleHandlers.getitem 0 (SemiflexibleHandlers.__init__ true)
      (KDtype np_float32)
    = Some (Returns (biff12.FLOAT, e), SemiflexibleHandlers.__init__ true)
    /\ call (fun _ => []) e (PyFloat 0x3FF8000000000000)
         (RecordWriter.__init__ (working []))
       = (Raises (NameError "struct"), RecordWriter.__init__ (working [])).
Proof.
  apply (float_dtype_entries_raise np_float32 0 (fun _ => [])). left. reflexivity.
Defined.

(** ** write_double *)

(** Property X21.  A [float] is written by [write_double] as the 8 bytes of
    its binary64 bit pattern, least significant first: read back, the bytes
    give the bit pattern, so no two different floats are written alike. *)
Theorem write_double_round_trip (bits : Z) (log : list bytes) (enc : codec) :
  0 <= bits < 2 ^ 64 ->
  exists payload : bytes,
    RecordWriter.write_double (PyFloat bits) false
      (RecordWriter.mk (working log) enc)
    = (Returns tt, RecordWriter.mk (working (log ++ [payload])) enc)
    /\ length payload = 8%nat
    /\ Forall (fun b => 0 <= b < 0x100) payload
    /\ le_value payload = bits.
Proof.
  intros Hbits. exists (le_bytes 8 bits).
  split; [| split; [apply length_le_bytes | split; [apply le_bytes_are_bytes |]]].
  - unfold RecordWriter.write_double.
    rewrite load_double_t, bind_lift_Returns. reflexivity.
  - rewrite le_value_le_bytes. apply Z.mod_small.
    change (8 * Z.of_nat 8) with 64. exact Hbits.
Qed.

(** 1.5 is [0x3FF8000000000000]. *)
Lemma write_double_round_trip_witness :
  exists payload : bytes,
    RecordWriter.write_double (PyFloat 0x3FF8000000000000) false
      (RecordWriter.mk (working []) utf_16)
    = (Returns tt, RecordWriter.mk (working ([] ++ [payload])) utf_16)
    /\ length payload = 8%nat
    /\ Forall (fun b => 0 <= b < 0x100) payload
    /\ le_value payload = 0x3FF8000000000000.
Proof.
  apply (write_double_round_trip 0x3FF8000000000000 [] utf_16).
  split; [lia | reflexivity].
Defined.
